(** * gRPC native instrumentation: patch lifecycle and span lifecycle

    A shallow embedding of
    [experimental/packages/opentelemetry-instrumentation-grpc/src/grpc/index.ts]
    (class [GrpcNativeInstrumentation]).  JavaScript closures are
    defunctionalised: a function value is a constructor holding the variables
    the closure captured, and an [invoke_*] interpreter gives its body.
    Every call into a collaborator (tracer, propagation, diagnostics, the
    wrapped library) appends one [Action] to a log, so that counts and
    orderings of calls can be stated over the log. *)

From Stdlib Require Import ZArith Ascii String.
From stdpp Require Import base option list strings gmap.

Open Scope string_scope.
Open Scope list_scope.

(** ** Strings *)

Module Str.

Definition toLowerCase_ascii (c : ascii) : ascii :=
  let n := nat_of_ascii c in
  if (65 <=? n)%nat && (n <=? 90)%nat then ascii_of_nat (n + 32) else c.

(** [String.prototype.toLowerCase], on ASCII. *)
Fixpoint toLowerCase (s : string) : string :=
  match s with
  | EmptyString => EmptyString
  | String c rest => String (toLowerCase_ascii c) (toLowerCase rest)
  end.

Definition slash : ascii := "/"%char.

(** [s.replace('/', '')]: a string pattern replaces the first occurrence only. *)
Fixpoint remove_first_slash (s : string) : string :=
  match s with
  | EmptyString => EmptyString
  | String c rest =>
      if Ascii.eqb c slash then rest else String c (remove_first_slash rest)
  end.

Fixpoint has_slash (s : string) : bool :=
  match s with
  | EmptyString => false
  | String c rest => Ascii.eqb c slash || has_slash rest
  end.

(** Cut [s] at its last ['/']: the text before it and the text after it. *)
Fixpoint split_last_slash (s : string) : option (string * string) :=
  match s with
  | EmptyString => None
  | String c rest =>
      match split_last_slash rest with
      | Some (before, after) => Some (String c before, after)
      | None => if Ascii.eqb c slash then Some (EmptyString, rest) else None
      end
  end.

Definition drop_leading_slash (s : string) : string :=
  match s with
  | String c rest => if Ascii.eqb c slash then rest else s
  | EmptyString => s
  end.

End Str.

(** ** Data the instrumentation handles *)

(** JavaScript values that cross the instrumentation unchanged (return
    values, responses). *)
Inductive Value :=
| VUndefined
| VBool (b : bool)
| VNumber (n : Z)
| VString (s : string).

(** A metadata carrier ([grpcTypes.Metadata]): header names with a string or
    an array of strings each. *)
Inductive MetadataValue :=
| MdString (s : string)
| MdArray (l : list string).

Definition Metadata := list (string * MetadataValue).

(** [metadata.get(key)]: header names are matched case-insensitively. *)
Fixpoint metadata_get (key : string) (md : Metadata) : option MetadataValue :=
  match md with
  | [] => None
  | (k, v) :: rest =>
      if String.eqb (Str.toLowerCase k) (Str.toLowerCase key) then Some v
      else metadata_get key rest
  end.

Record ServiceError := { err_name : string; err_message : string }.

(** *** The tracing API (@opentelemetry/api) *)

Inductive SpanKind := SERVER | CLIENT.

Inductive SpanStatus :=
| StatusUnset
| StatusError (message : string).

Inductive AttributeValue :=
| AttrUndefined
| AttrString (s : string)
| AttrStrings (l : list string)
| AttrNumber (n : Z).

Definition attr_of_option (o : option string) : AttributeValue :=
  match o with Some s => AttrString s | None => AttrUndefined end.

Definition attr_of_metadata (v : MetadataValue) : AttributeValue :=
  match v with MdString s => AttrString s | MdArray l => AttrStrings l end.

(** The active context: [ROOT_CONTEXT], the result of [propagation.extract],
    or the result of [trace.setSpan]. *)
Inductive Context :=
| ROOT_CONTEXT
| Extracted (carrier : Metadata) (parent : Context)
| SpanContext (span : nat) (parent : Context).

(** Modelled from the spec: the attribute keys of [SemanticAttributes]
    (@opentelemetry/semantic-conventions) and the value of
    [AttributeValues.RPC_SYSTEM] ([../enums/AttributeValues]) that section 6
    lists as produced (RPC system, method, service, peer name and port);
    neither file is under src/, and no property below depends on the strings
    themselves. *)
Module SemanticAttributes.
Definition RPC_SYSTEM := "rpc.system".
Definition RPC_METHOD := "rpc.method".
Definition RPC_SERVICE := "rpc.service".
Definition NET_PEER_NAME := "net.peer.name".
Definition NET_PEER_PORT := "net.peer.port".
End SemanticAttributes.

Module AttributeValues.
Definition RPC_SYSTEM := "grpc".
End AttributeValues.

(** *** Configuration *)

(** One entry of [ignoreGrpcMethods]: an exact string or a regular
    expression, the latter given by its [test] function. *)
Inductive IgnoreMatcher :=
| MatchString (s : string)
| MatchRegExp (test : string → bool).

Record MetadataKeys := {
  requestMetadata : option (list string);
  responseMetadata : option (list string)
}.

Record MetadataToSpanAttributes := {
  mtsa_client : option MetadataKeys;
  mtsa_server : option MetadataKeys
}.

Record GrpcInstrumentationConfig := {
  ignoreGrpcMethods : option (list IgnoreMatcher);
  metadataToSpanAttributes : option MetadataToSpanAttributes
}.

(** The closure returned by [metadataCapture(type, metadataToAdd)], as the
    two variables it captures. *)
Record MetadataCapture := { mc_type : string; mc_keys : list string }.

Record CaptureSide := {
  captureRequestMetadata : MetadataCapture;
  captureResponseMetadata : MetadataCapture
}.

Record metadataCaptureType := { client : CaptureSide; server : CaptureSide }.

(** ** Function values

    Each JavaScript function the instrumentation handles is a constructor:
    either the library's (or the user's) own function, or one of the closures
    [index.ts] builds around it, holding the variables that closure captured. *)

(** The [callback] argument of a handler: absent ([undefined], as for the
    streaming shapes), the library's own, or the closure put around it. *)
Inductive CallbackFn :=
| UndefinedCallback
| SendUnaryData
| patchedCallback (span : nat) (callback : CallbackFn).

(** [call.sendMetadata]. *)
Inductive SendMetadataFn :=
| SendMetadataOrig (result : Value)
| SendMetadataPatched (span : nat) (originalSendMetadata : SendMetadataFn).

(** The listeners [serverStreamAndBidiHandler] registers on a call, with the
    span they close over and their once-only flag. *)
Record StreamListener := { l_span : nat; spanEnded : bool }.

Record ServerCallWithMeta := {
  metadata : Metadata;
  sendMetadata : SendMetadataFn;
  listeners : list StreamListener
}.

Inductive StreamEvent :=
| EvData (chunk : Value)
| EvEnd
| EvError (err : ServiceError)
| EvFinish
| EvStatus.

(** What a user's handler does with the call and the callback it is given. *)
Inductive HandlerStep :=
| CallSendMetadata (responseMetadata : Metadata)
| InvokeCallback (err : option ServiceError) (value : Value)
| EmitEvent (ev : StreamEvent).

Record UserHandler := { h_steps : list HandlerStep; h_result : Value }.

(** [handlerSet.func]. *)
Inductive HandlerFn :=
| HandlerOrig (h : UserHandler)
| func_patched (name type : string) (originalResult : Value)
    (originalFunc : HandlerFn).

Record HandlerSet := { func : HandlerFn; hs_type : string }.

Record RegisterArgs := {
  r_name : string;
  r_handler : HandlerFn;
  r_type : string
}.

(** [Server.prototype.register]; the server is its [handlers] table. *)
Inductive RegisterFn :=
| RegisterOrig
    (impl : gmap string HandlerSet → RegisterArgs →
            Value * gmap string HandlerSet)
| register_patched (originalRegister : RegisterFn).

Record MethodDefinition := { originalName : option string }.

(** The method table of a client, in [Object.entries] order. *)
Definition Methods := list (string * MethodDefinition).

Inductive ClientArg :=
| ArgValue (v : Value)
| ArgMetadata (md : Metadata).

(** A method on [client.prototype]. *)
Inductive GrpcClientFunc :=
| ClientMethodOrig (path : option string) (result : Value)
| clientMethodTrace (original : GrpcClientFunc).

(** [Object.assign(clientMethodTrace, original)] copies [path]. *)
Fixpoint path_of (f : GrpcClientFunc) : option string :=
  match f with
  | ClientMethodOrig path _ => path
  | clientMethodTrace original => path_of original
  end.

Record Client := { prototype : gmap string GrpcClientFunc }.

(** A client instance, by [this.getChannel().getTarget()]. *)
Record ClientInstance := { getTarget : string }.

(** [makeGenericClientConstructor] and [makeClientConstructor]. *)
Inductive MakeClientConstructorFn :=
| MakeClientOrig (impl : Methods → string → Value → Client)
| makeClientConstructor_patched (original : MakeClientConstructorFn).

Record GrpcModule := {
  Server_prototype_register : RegisterFn;
  makeGenericClientConstructor : MakeClientConstructorFn
}.

Record GrpcInternalClientTypes := {
  makeClientConstructor : MakeClientConstructorFn
}.

(** ** The world: instrumentation state and the log of calls *)

Inductive Action :=
| DiagDebug (msg : string)
| PropagationExtract (carrier : Metadata)
| StartSpan (span : nat) (name : string) (kind : SpanKind)
| SetAttributes (span : nat) (attrs : list (string * AttributeValue))
| SetAttribute (span : nat) (key : string) (v : AttributeValue)
| SetStatus (span : nat) (status : SpanStatus)
| SpanEnd (span : nat)
| CallOriginalRegister (args : RegisterArgs)
| CallOriginalFunc (h : UserHandler) (call : ServerCallWithMeta)
    (callback : CallbackFn) (ctx : Context)
| CallOriginalCallback (err : option ServiceError) (value : Value)
| CallOriginalSendMetadata (responseMetadata : Metadata)
| CallOriginalMakeClientConstructor (methods : Methods) (serviceName : string)
| CallOriginalClientMethod (path : option string) (args : list ClientArg)
    (ctx : Context).

Record World := {
  config : GrpcInstrumentationConfig;
  _metadataCapture : metadataCaptureType;
  active : Context;
  nextSpan : nat;
  log : list Action
}.

Definition M (A : Type) : Type := World → A * World.

Definition ret {A} (a : A) : M A := fun w => (a, w).

Definition bind {A B} (m : M A) (k : A → M B) : M B :=
  fun w => let (a, w') := m w in k a w'.

Notation "x <- m ;; k" := (bind m (fun x => k))
  (at level 100, m at next level, right associativity).
Notation "m ;; k" := (bind m (fun _ => k))
  (at level 100, right associativity).

Definition emit (a : Action) : M unit :=
  fun w => (tt, {| config := config w; _metadataCapture := _metadataCapture w;
                   active := active w; nextSpan := nextSpan w;
                   log := log w ++ [a] |}).

Definition set_active (ctx : Context) (w : World) : World :=
  {| config := config w; _metadataCapture := _metadataCapture w;
     active := ctx; nextSpan := nextSpan w; log := log w |}.

Definition getConfig : M GrpcInstrumentationConfig := fun w => (config w, w).

Definition get_metadataCapture : M metadataCaptureType :=
  fun w => (_metadataCapture w, w).

Definition diag_debug (msg : string) : M unit := emit (DiagDebug msg).

(** *** Tracer, context and propagation *)

Definition tracer_startSpan (name : string) (kind : SpanKind) : M nat :=
  fun w => (nextSpan w,
            {| config := config w; _metadataCapture := _metadataCapture w;
               active := active w; nextSpan := S (nextSpan w);
               log := log w ++ [StartSpan (nextSpan w) name kind] |}).

Definition span_setAttributes (span : nat)
    (attrs : list (string * AttributeValue)) : M nat :=
  emit (SetAttributes span attrs) ;; ret span.

Definition span_setAttribute (span : nat) (key : string)
    (v : AttributeValue) : M unit :=
  emit (SetAttribute span key v).

Definition span_setStatus (span : nat) (status : SpanStatus) : M unit :=
  emit (SetStatus span status).

Definition span_end (span : nat) : M unit := emit (SpanEnd span).

Definition context_active : M Context := fun w => (active w, w).

(** [context.with(ctx, fn)]: [fn] runs with [ctx] active, and the previous
    context is active again afterwards. *)
Definition context_with {A} (ctx : Context) (fn : M A) : M A :=
  fun w => let (a, w') := fn (set_active ctx w) in (a, set_active (active w) w').

Definition propagation_extract (ctx : Context) (carrier : Metadata) : M Context :=
  emit (PropagationExtract carrier) ;; ret (Extracted carrier ctx).

Definition trace_setSpan (ctx : Context) (span : nat) : Context :=
  SpanContext span ctx.

(** ** Helpers of [../utils], [./serverUtils] and [InstrumentationBase] *)

(** Modelled from the spec: [_wrap], [_unwrap] and [isWrapped] of
    [InstrumentationBase] (@opentelemetry/instrumentation) are not under
    src/.  Wrapping substitutes, in the slot [nodule[name]], the function the
    wrapper builds around the current one; a wrapped function remembers the
    one it replaced ([__original]); unwrapping puts that one back, and does
    nothing to a function that is not wrapped. *)
Class Shimmed (F : Type) := __original : F → option F.

Global Instance SendMetadataFn_shimmed : Shimmed SendMetadataFn := fun f =>
  match f with SendMetadataPatched _ o => Some o | SendMetadataOrig _ => None end.

Global Instance HandlerFn_shimmed : Shimmed HandlerFn := fun f =>
  match f with func_patched _ _ _ o => Some o | HandlerOrig _ => None end.

Global Instance RegisterFn_shimmed : Shimmed RegisterFn := fun f =>
  match f with register_patched o => Some o | RegisterOrig _ => None end.

Global Instance GrpcClientFunc_shimmed : Shimmed GrpcClientFunc := fun f =>
  match f with clientMethodTrace o => Some o | ClientMethodOrig _ _ => None end.

Global Instance MakeClientConstructorFn_shimmed : Shimmed MakeClientConstructorFn :=
  fun f =>
  match f with
  | makeClientConstructor_patched o => Some o
  | MakeClientOrig _ => None
  end.

Definition isWrapped {F} `{Shimmed F} (f : F) : bool :=
  match __original f with Some _ => true | None => false end.

(** A slot [nodule[name]] is given by how it is read and written. *)
Definition _wrap {N F} (get : N → F) (set : F → N → N)
    (nodule : N) (wrapper : F → M F) : M N :=
  wrapped <- wrapper (get nodule) ;; ret (set wrapped nodule).

Definition _unwrap {N F} `{Shimmed F} (get : N → F) (set : F → N → N)
    (nodule : N) : N :=
  match __original (get nodule) with
  | Some original => set original nodule
  | None => nodule
  end.

(** The function [_unwrap] leaves in a slot. *)
Definition unwrapped {F} `{Shimmed F} (f : F) : F :=
  match __original f with Some original => original | None => f end.

(** Modelled from the spec: [_massWrap] of [InstrumentationBase]: [_wrap] for
    each name in turn; a name that is not on the object is skipped. *)
Fixpoint _massWrap {F} (nodule : gmap string F) (names : list string)
    (wrapper : F → M F) : M (gmap string F) :=
  match names with
  | [] => ret nodule
  | name :: rest =>
      nodule' <- match nodule !! name with
                 | Some f => wrapped <- wrapper f ;; ret (<[name := wrapped]> nodule)
                 | None => ret nodule
                 end ;;
      _massWrap nodule' rest wrapper
  end.

(** Modelled from the spec: [_methodIsIgnored] of [../utils] (4.2): a method
    is ignored if some matcher equals its name exactly, case-sensitively, or
    matches it as a pattern. *)
Definition _satisfiesPattern (methodName : string) (pattern : IgnoreMatcher) : bool :=
  match pattern with
  | MatchString s => String.eqb s methodName
  | MatchRegExp test => test methodName
  end.

Definition _methodIsIgnored (methodName : string)
    (ignoredMethods : option (list IgnoreMatcher)) : bool :=
  match ignoredMethods with
  | None => false
  | Some patterns => existsb (_satisfiesPattern methodName) patterns
  end.

Record MethodAndService := { service : option string; method : option string }.

(** Modelled from the spec: [_extractMethodAndService] of [../utils] (4.1).
    The path has the shape [/<service>/<method>]: it is cut at its last
    ['/']; what stands before, after the leading ['/'] of the shape, is the
    service and the remainder is the method.  An empty or undefined path
    gives two undefined fields. *)
Definition _extractMethodAndService (name : option string) : MethodAndService :=
  match name with
  | None => {| service := None; method := None |}
  | Some EmptyString => {| service := None; method := None |}
  | Some path =>
      match Str.split_last_slash (Str.drop_leading_slash path) with
      | Some (before, after) => {| service := Some before; method := Some after |}
      | None => {| service := None; method := Some (Str.drop_leading_slash path) |}
      end
  end.

(** Modelled from the spec: [metadataCapture] of [../utils] (4.3): for each
    configured key found in the carrier, one [setAttribute] named
    [rpc.<type>.metadata.<key>], key lower-cased, with the carrier's value;
    a key that is not found is skipped. *)
Definition metadataCapture (type : string) (metadataToAdd : list string) : MetadataCapture :=
  {| mc_type := type; mc_keys := metadataToAdd |}.

Definition metadata_attribute (type key : string) : string :=
  "rpc." +:+ type +:+ ".metadata." +:+ Str.toLowerCase key.

Fixpoint capture_keys (type : string) (span : nat) (md : Metadata)
    (keys : list string) : M unit :=
  match keys with
  | [] => ret tt
  | key :: rest =>
      match metadata_get key md with
      | Some v => span_setAttribute span (metadata_attribute type key) (attr_of_metadata v)
      | None => ret tt
      end ;;
      capture_keys type span md rest
  end.

Definition invoke_metadataCapture (f : MetadataCapture) (span : nat)
    (md : Metadata) : M unit :=
  capture_keys (mc_type f) span md (mc_keys f).

(** The method part of a registered name such as [/pkg.Service/Method]. *)
Definition registered_method (name : string) : string :=
  match Str.split_last_slash name with
  | Some (_, after) => after
  | None => name
  end.

(** Modelled from the spec: [shouldNotTraceServerCall] of [./serverUtils]
    (4.4): the ignore list of the configuration in force at the call,
    consulted with the method name derived from the registered name. *)
Definition shouldNotTraceServerCall (call : ServerCallWithMeta) (name : string) : M bool :=
  cfg <- getConfig ;;
  ret (_methodIsIgnored (registered_method name) (ignoreGrpcMethods cfg)).

(** ** The server side: [_patchServer] *)

(** Modelled from the spec: the callback [clientStreamAndUnaryHandler] of
    [./serverUtils] hands to the original handler (4.4): whichever of
    (error, response) it is called with, the status is set (an error gives
    the error status with its message, success the unset status), the span is
    ended, and then the original callback is called with the same arguments.
    A handler that was given no callback has none to call. *)
Fixpoint invoke_callback (cb : CallbackFn) (err : option ServiceError)
    (value : Value) : M Value :=
  match cb with
  | UndefinedCallback => ret VUndefined
  | SendUnaryData => emit (CallOriginalCallback err value) ;; ret VUndefined
  | patchedCallback span callback =>
      span_setStatus span
        match err with
        | Some e => StatusError (err_message e)
        | None => StatusUnset
        end ;;
      span_end span ;;
      invoke_callback callback err value
  end.

(** [call.sendMetadata(responseMetadata)]; for the wrapper, lines 235-241. *)
Fixpoint invoke_sendMetadata (f : SendMetadataFn) (responseMetadata : Metadata) : M Value :=
  match f with
  | SendMetadataOrig result =>
      emit (CallOriginalSendMetadata responseMetadata) ;; ret result
  | SendMetadataPatched span originalSendMetadata =>
      mc <- get_metadataCapture ;;
      invoke_metadataCapture (captureResponseMetadata (server mc)) span responseMetadata ;;
      invoke_sendMetadata originalSendMetadata responseMetadata ;;
      ret VUndefined
  end.

(** The status a terminal event of a streaming call stands for. *)
Definition terminal_status (ev : StreamEvent) : option SpanStatus :=
  match ev with
  | EvError err => Some (StatusError (err_message err))
  | EvFinish | EvStatus => Some StatusUnset
  | EvData _ | EvEnd => None
  end.

(** Modelled from the spec: the listeners of [serverStreamAndBidiHandler]
    (4.4): the first terminal event sets the status it stands for and ends
    the span; later terminal events are ignored. *)
Definition run_listener (ev : StreamEvent) (l : StreamListener) : M StreamListener :=
  match terminal_status ev with
  | Some status =>
      if spanEnded l then ret l
      else
        span_setStatus (l_span l) status ;;
        span_end (l_span l) ;;
        ret {| l_span := l_span l; spanEnded := true |}
  | None => ret l
  end.

Fixpoint run_listeners (ev : StreamEvent) (ls : list StreamListener) : M (list StreamListener) :=
  match ls with
  | [] => ret []
  | l :: rest =>
      l' <- run_listener ev l ;;
      rest' <- run_listeners ev rest ;;
      ret (l' :: rest')
  end.

(** [call.emit(ev)]. *)
Definition call_emit (ev : StreamEvent) (call : ServerCallWithMeta) : M ServerCallWithMeta :=
  ls <- run_listeners ev (listeners call) ;;
  ret {| metadata := metadata call; sendMetadata := sendMetadata call; listeners := ls |}.


Definition run_step (callback : CallbackFn) (step : HandlerStep)
    (call : ServerCallWithMeta) : M ServerCallWithMeta :=
  match step with
  | CallSendMetadata responseMetadata =>
      invoke_sendMetadata (sendMetadata call) responseMetadata ;; ret call
  | InvokeCallback err value => invoke_callback callback err value ;; ret call
  | EmitEvent ev => call_emit ev call
  end.

Fixpoint run_steps (callback : CallbackFn) (steps : list HandlerStep)
    (call : ServerCallWithMeta) : M ServerCallWithMeta :=
  match steps with
  | [] => ret call
  | step :: rest => call' <- run_step callback step call ;; run_steps callback rest call'
  end.

(** The user's handler, called with [(call, callback)]. *)
Definition invoke_user_handler (h : UserHandler) (call : ServerCallWithMeta)
    (callback : CallbackFn) : M (Value * ServerCallWithMeta) :=
  ctx <- context_active ;;
  emit (CallOriginalFunc h call callback ctx) ;;
  call' <- run_steps callback (h_steps h) call ;;
  ret (h_result h, call').

Definition HandlerCall : Type :=
  ServerCallWithMeta → CallbackFn → M (Value * ServerCallWithMeta).

(** Modelled from the spec: [clientStreamAndUnaryHandler] of [./serverUtils]:
    the original handler is called with the call and the wrapped callback. *)
Definition clientStreamAndUnaryHandler (span : nat) (call : ServerCallWithMeta)
    (callback : CallbackFn) (original : HandlerCall) : M (Value * ServerCallWithMeta) :=
  original call (patchedCallback span callback).

(** Modelled from the spec: [serverStreamAndBidiHandler] of [./serverUtils]:
    the listeners are registered, then the original handler is called with
    the call only. *)
Definition serverStreamAndBidiHandler (span : nat) (call : ServerCallWithMeta)
    (original : HandlerCall) : M (Value * ServerCallWithMeta) :=
  original
    {| metadata := metadata call; sendMetadata := sendMetadata call;
       listeners := listeners call ++ [{| l_span := span; spanEnded := false |}] |}
    UndefinedCallback.

Definition is_unary_or_client_stream (type : string) : bool :=
  String.eqb type "unary" || String.eqb type "client_stream".

Definition is_server_stream_or_bidi (type : string) : bool :=
  String.eqb type "server_stream" || String.eqb type "bidi".

Definition dquote : string := String (ascii_of_nat 34) EmptyString.

(** [JSON.stringify({ kind: SpanKind.SERVER })]. *)
Definition spanOptions_json : string :=
  "{" +:+ dquote +:+ "kind" +:+ dquote +:+ ":1}".

Definition set_sendMetadata (f : SendMetadataFn) (call : ServerCallWithMeta) : ServerCallWithMeta :=
  {| metadata := metadata call; sendMetadata := f; listeners := listeners call |}.

(** [handlerSet.func(call, callback)]; for the wrapper, lines 178-269. *)
Fixpoint invoke_func (f : HandlerFn) (call : ServerCallWithMeta)
    (callback : CallbackFn) : M (Value * ServerCallWithMeta) :=
  match f with
  | HandlerOrig h => invoke_user_handler h call callback
  | func_patched name type originalResult originalFunc =>
      ignored <- shouldNotTraceServerCall call name ;;
      if ignored then
        if is_unary_or_client_stream type then invoke_func originalFunc call callback
        else if is_server_stream_or_bidi type
        then invoke_func originalFunc call UndefinedCallback
        else ret (originalResult, call)
      else
        let spanName := "grpc." +:+ Str.remove_first_slash name in
        diag_debug ("patch func: " +:+ spanOptions_json) ;;
        outer <- context_active ;;
        extracted <- propagation_extract outer (metadata call) ;;
        call' <- context_with extracted (
          let ms := _extractMethodAndService (Some name) in
          span <- tracer_startSpan spanName SERVER ;;
          span_setAttributes span
            [(SemanticAttributes.RPC_SYSTEM, AttrString AttributeValues.RPC_SYSTEM);
             (SemanticAttributes.RPC_METHOD, attr_of_option (method ms));
             (SemanticAttributes.RPC_SERVICE, attr_of_option (service ms))] ;;
          mc <- get_metadataCapture ;;
          invoke_metadataCapture (captureRequestMetadata (server mc)) span (metadata call) ;;
          call1 <- _wrap sendMetadata set_sendMetadata call
                     (fun originalSendMetadata =>
                        ret (SendMetadataPatched span originalSendMetadata)) ;;
          inner <- context_active ;;
          context_with (trace_setSpan inner span) (
            if is_unary_or_client_stream type then
              r <- clientStreamAndUnaryHandler span call1 callback (invoke_func originalFunc) ;;
              ret (snd r)
            else if is_server_stream_or_bidi type then
              r <- serverStreamAndBidiHandler span call1 (invoke_func originalFunc) ;;
              ret (snd r)
            else ret call1)) ;;
        ret (VUndefined, call')
  end.

Definition set_func (f : HandlerFn) (handlerSet : HandlerSet) : HandlerSet :=
  {| func := f; hs_type := hs_type handlerSet |}.

(** [server.register(name, handler, serialize, deserialize, type)]; for the
    wrapper, lines 163-274.  The server is threaded as its [handlers]. *)
Fixpoint invoke_register (f : RegisterFn) (handlers : gmap string HandlerSet)
    (args : RegisterArgs) : M (Value * gmap string HandlerSet) :=
  match f with
  | RegisterOrig impl => emit (CallOriginalRegister args) ;; ret (impl handlers args)
  | register_patched originalRegister =>
      r <- invoke_register originalRegister handlers args ;;
      let originalResult := fst r in
      match snd r !! r_name args with
      | Some handlerSet =>
          wrapped <- _wrap func set_func handlerSet
                       (fun originalFunc =>
                          ret (func_patched (r_name args) (r_type args)
                                 originalResult originalFunc)) ;;
          ret (originalResult, <[r_name args := wrapped]> (snd r))
      | None => ret (originalResult, snd r)
      end
  end.

Definition _patchServer (originalRegister : RegisterFn) : M RegisterFn :=
  diag_debug "patched gRPC server" ;;
  ret (register_patched originalRegister).

(** ** The client side: [_patchClient] *)

(** Modelled from the spec: [getMetadata] of [./clientUtils] (4.5): the
    metadata carrier the caller supplied among the arguments, or a new one. *)
Fixpoint getMetadata (original : GrpcClientFunc) (args : list ClientArg) : Metadata :=
  match args with
  | [] => []
  | ArgMetadata md :: _ => md
  | ArgValue _ :: rest => getMetadata original rest
  end.

Definition ClientCall : Type := ClientInstance → list ClientArg → M Value.

(** Modelled from the spec: [makeGrpcClientRemoteCall] of [./clientUtils]
    (4.5): the underlying method is called with the original arguments.  The
    span is completed by later events of the call it returns, which are not
    part of the invocation. *)
Definition makeGrpcClientRemoteCall (mc : metadataCaptureType)
    (original : ClientCall) (args : list ClientArg) (md : Metadata)
    (self : ClientInstance) (span : nat) : M Value :=
  original self args.

Section ClientSide.

(** [URI_REGEX.exec(target)] of [../utils], as the groups [name] and [port]
    of a match, and [parseInt]. *)
Variable URI_REGEX_exec : string → option (string * string).
Variable parseInt : string → AttributeValue.

(** [client.prototype[name].apply(this, args)]; for the wrapper
    [clientMethodTrace], lines 327-371. *)
Fixpoint invoke_client_method (f : GrpcClientFunc) (this : ClientInstance)
    (args : list ClientArg) : M Value :=
  match f with
  | ClientMethodOrig path result =>
      ctx <- context_active ;;
      emit (CallOriginalClientMethod path args ctx) ;;
      ret result
  | clientMethodTrace original =>
      let name := "grpc." +:+
                  match path_of original with
                  | Some path => Str.remove_first_slash path
                  | None => "undefined"
                  end in
      let md := getMetadata original args in
      let ms := _extractMethodAndService (path_of original) in
      span <- tracer_startSpan name CLIENT ;;
      span_setAttributes span
        [(SemanticAttributes.RPC_SYSTEM, AttrString AttributeValues.RPC_SYSTEM);
         (SemanticAttributes.RPC_METHOD, attr_of_option (method ms));
         (SemanticAttributes.RPC_SERVICE, attr_of_option (service ms))] ;;
      match URI_REGEX_exec (getTarget this) with
      | Some (peer_name, peer_port) =>
          span_setAttribute span SemanticAttributes.NET_PEER_NAME (AttrString peer_name) ;;
          span_setAttribute span SemanticAttributes.NET_PEER_PORT (parseInt peer_port)
      | None => ret tt
      end ;;
      mc <- get_metadataCapture ;;
      invoke_metadataCapture (captureRequestMetadata (client mc)) span md ;;
      outer <- context_active ;;
      context_with (trace_setSpan outer span)
        (makeGrpcClientRemoteCall mc (invoke_client_method original) args md this span)
  end.

End ClientSide.

Definition _getPatchedClientMethods (original : GrpcClientFunc) : M GrpcClientFunc :=
  diag_debug "patch all client methods" ;;
  ret (clientMethodTrace original).

(** The names one entry of the method table adds to the list (lines 306-319). *)
Definition methods_of_entry (cfg : GrpcInstrumentationConfig) (client : Client)
    (name : string) (def : MethodDefinition) : list string :=
  if negb (_methodIsIgnored name (ignoreGrpcMethods cfg)) then
    name ::
    match originalName def with
    | Some original =>
        if negb (String.eqb original "")
           && bool_decide (is_Some (prototype client !! original))
           && negb (String.eqb name original)
        then [original] else []
    | None => []
    end
  else [].

Fixpoint _getMethodsToWrap (client : Client) (methods : Methods) : M (list string) :=
  match methods with
  | [] => ret []
  | (name, def) :: rest =>
      cfg <- getConfig ;;
      methodList <- _getMethodsToWrap client rest ;;
      ret (methods_of_entry cfg client name def ++ methodList)
  end.

(** [makeClientConstructor(methods, serviceName, options)]; for the wrapper,
    lines 282-295. *)
Fixpoint invoke_makeClientConstructor (f : MakeClientConstructorFn)
    (methods : Methods) (serviceName : string) (options : Value) : M Client :=
  match f with
  | MakeClientOrig impl =>
      emit (CallOriginalMakeClientConstructor methods serviceName) ;;
      ret (impl methods serviceName options)
  | makeClientConstructor_patched original =>
      client <- invoke_makeClientConstructor original methods serviceName options ;;
      names <- _getMethodsToWrap client methods ;;
      proto <- _massWrap (prototype client) names _getPatchedClientMethods ;;
      ret {| prototype := proto |}
  end.

Definition _patchClient (original : MakeClientConstructorFn) : M MakeClientConstructorFn :=
  diag_debug "patching client" ;;
  ret (makeClientConstructor_patched original).

(** ** The patch lifecycle: [init], [_getInternalPatchs], [setConfig] *)

Definition set_register (f : RegisterFn) (m : GrpcModule) : GrpcModule :=
  {| Server_prototype_register := f;
     makeGenericClientConstructor := makeGenericClientConstructor m |}.

Definition set_makeGenericClientConstructor (f : MakeClientConstructorFn)
    (m : GrpcModule) : GrpcModule :=
  {| Server_prototype_register := Server_prototype_register m;
     makeGenericClientConstructor := f |}.

Definition set_makeClientConstructor (f : MakeClientConstructorFn)
    (m : GrpcInternalClientTypes) : GrpcInternalClientTypes :=
  {| makeClientConstructor := f |}.

(** The patch callback of the [grpc] module (lines 79-101).  The module
    variable [grpcClient] it sets is read by [getMetadata] only, for the
    library's [Metadata] constructor, and is left out. *)
Definition init_patch (moduleExports : GrpcModule) (version : string) : M GrpcModule :=
  diag_debug ("Applying patch for grpc@" +:+ version) ;;
  let m1 :=
    if isWrapped (Server_prototype_register moduleExports)
    then _unwrap Server_prototype_register set_register moduleExports
    else moduleExports in
  m2 <- _wrap Server_prototype_register set_register m1 _patchServer ;;
  let m3 :=
    if isWrapped (makeGenericClientConstructor m2)
    then _unwrap makeGenericClientConstructor set_makeGenericClientConstructor m2
    else m2 in
  _wrap makeGenericClientConstructor set_makeGenericClientConstructor m3 _patchClient.

(** The unpatch callback of the [grpc] module (lines 102-107). *)
Definition init_unpatch (moduleExports : option GrpcModule) (version : string)
    : M (option GrpcModule) :=
  match moduleExports with
  | None => ret None
  | Some m =>
      diag_debug ("Removing patch for grpc@" +:+ version) ;;
      ret (Some (_unwrap Server_prototype_register set_register m))
  end.

(** [onPatch] of the internal client files (lines 123-133). *)
Definition onPatch (moduleExports : GrpcInternalClientTypes) (version : string)
    : M GrpcInternalClientTypes :=
  diag_debug ("Applying internal patch for grpc@" +:+ version) ;;
  let m1 :=
    if isWrapped (makeClientConstructor moduleExports)
    then _unwrap makeClientConstructor set_makeClientConstructor moduleExports
    else moduleExports in
  _wrap makeClientConstructor set_makeClientConstructor m1 _patchClient.

(** [onUnPatch] of the internal client files (lines 134-141). *)
Definition onUnPatch (moduleExports : option GrpcInternalClientTypes)
    (version : string) : M (option GrpcInternalClientTypes) :=
  match moduleExports with
  | None => ret None
  | Some m =>
      diag_debug ("Removing internal patch for grpc@" +:+ version) ;;
      ret (Some (_unwrap makeClientConstructor set_makeClientConstructor m))
  end.

(** [config.metadataToSpanAttributes?.<side>?.<direction> ?? []]. *)
Definition configured_keys (cfg : GrpcInstrumentationConfig)
    (side : MetadataToSpanAttributes → option MetadataKeys)
    (direction : MetadataKeys → option (list string)) : list string :=
  match metadataToSpanAttributes cfg with
  | Some m =>
      match side m with
      | Some keys => match direction keys with Some l => l | None => [] end
      | None => []
      end
  | None => []
  end.

Definition _createMetadataCapture (cfg : GrpcInstrumentationConfig) : metadataCaptureType :=
  {| client :=
       {| captureRequestMetadata :=
            metadataCapture "request" (configured_keys cfg mtsa_client requestMetadata);
          captureResponseMetadata :=
            metadataCapture "response" (configured_keys cfg mtsa_client responseMetadata) |};
     server :=
       {| captureRequestMetadata :=
            metadataCapture "request" (configured_keys cfg mtsa_server requestMetadata);
          captureResponseMetadata :=
            metadataCapture "response" (configured_keys cfg mtsa_server responseMetadata) |} |}.

Definition empty_config : GrpcInstrumentationConfig :=
  {| ignoreGrpcMethods := None; metadataToSpanAttributes := None |}.

Definition setConfig (cfg : option GrpcInstrumentationConfig) : M unit :=
  fun w =>
    let cfg' := match cfg with Some c => c | None => empty_config end in
    (tt, {| config := cfg'; _metadataCapture := _createMetadataCapture cfg';
            active := active w; nextSpan := nextSpan w; log := log w |}).

(** The instrumentation as its constructor leaves it. *)
Definition new_GrpcNativeInstrumentation (cfg : option GrpcInstrumentationConfig) : World :=
  let cfg' := match cfg with Some c => c | None => empty_config end in
  {| config := cfg'; _metadataCapture := _createMetadataCapture cfg';
     active := ROOT_CONTEXT; nextSpan := 0; log := [] |}.

(** ** Reading the log *)

Definition is_StartSpan (a : Action) : bool :=
  match a with StartSpan _ _ _ => true | _ => false end.

Definition is_SpanEnd_of (span : nat) (a : Action) : bool :=
  match a with SpanEnd s => Nat.eqb s span | _ => false end.

Definition is_SetStatus_of (span : nat) (a : Action) : bool :=
  match a with SetStatus s _ => Nat.eqb s span | _ => false end.

(** A call on the tracer, a span or the propagator. *)
Definition is_tracing (a : Action) : bool :=
  match a with
  | PropagationExtract _ | StartSpan _ _ _ | SetAttributes _ _
  | SetAttribute _ _ _ | SetStatus _ _ | SpanEnd _ => true
  | _ => false
  end.

Definition is_CallOriginalFunc (a : Action) : bool :=
  match a with CallOriginalFunc _ _ _ _ => true | _ => false end.

Definition is_CallOriginalRegister (a : Action) : bool :=
  match a with CallOriginalRegister _ => true | _ => false end.

Definition is_CallOriginalMakeClientConstructor (a : Action) : bool :=
  match a with CallOriginalMakeClientConstructor _ _ => true | _ => false end.

Definition is_CallOriginalClientMethod (a : Action) : bool :=
  match a with CallOriginalClientMethod _ _ _ => true | _ => false end.

Definition is_CallOriginalSendMetadata (a : Action) : bool :=
  match a with CallOriginalSendMetadata _ => true | _ => false end.

Fixpoint count (p : Action → bool) (l : list Action) : nat :=
  match l with
  | [] => 0
  | a :: rest => (if p a then 1 else 0) + count p rest
  end.



Definition is_CallOriginalCallback (a : Action) : bool :=
  match a with CallOriginalCallback _ _ => true | _ => false end.

(** The actions a handler's steps can add: on a span's attributes, status
    and end, and calls of the library's [sendMetadata] and callback. *)
Definition is_completion (a : Action) : bool :=
  match a with
  | SetAttribute _ _ _ | SetStatus _ _ | SpanEnd _
  | CallOriginalSendMetadata _ | CallOriginalCallback _ _ => true
  | _ => false
  end.

(** An action that leaves the status and the end of [span] alone. *)
Definition neutral_for (span : nat) (a : Action) : bool :=
  negb (is_SetStatus_of span a) && negb (is_SpanEnd_of span a).

Definition is_InvokeCallback (step : HandlerStep) : bool :=
  match step with InvokeCallback _ _ => true | _ => false end.

(** The world after the actions [d] and nothing else. *)
Definition add_log (d : list Action) (w : World) : World :=
  {| config := config w; _metadataCapture := _metadataCapture w;
     active := active w; nextSpan := nextSpan w; log := log w ++ d |}.

(** What [invoke_metadataCapture] is to add to the log: one [setAttribute]
    for each configured key the carrier has, in the order of the keys. *)
Definition captured (type : string) (span : nat) (md : Metadata)
    (keys : list string) : list Action :=
  omap (fun key =>
          match metadata_get key md with
          | Some v => Some (SetAttribute span (metadata_attribute type key) (attr_of_metadata v))
          | None => None
          end) keys.

(** ** The actions a computation adds, as pure functions

    These say, without the world, which actions the interpreters above add
    to the log; the lemmas [*_run] below relate the two. *)

Fixpoint callback_actions (cb : CallbackFn) (err : option ServiceError)
    (value : Value) : list Action :=
  match cb with
  | UndefinedCallback => []
  | SendUnaryData => [CallOriginalCallback err value]
  | patchedCallback span callback =>
      SetStatus span
        match err with
        | Some e => StatusError (err_message e)
        | None => StatusUnset
        end
      :: SpanEnd span :: callback_actions callback err value
  end.

Fixpoint sendMetadata_actions (mc : metadataCaptureType) (f : SendMetadataFn)
    (responseMetadata : Metadata) : list Action :=
  match f with
  | SendMetadataOrig _ => [CallOriginalSendMetadata responseMetadata]
  | SendMetadataPatched span originalSendMetadata =>
      captured (mc_type (captureResponseMetadata (server mc))) span responseMetadata
        (mc_keys (captureResponseMetadata (server mc)))
      ++ sendMetadata_actions mc originalSendMetadata responseMetadata
  end.

Definition listener_actions (ev : StreamEvent) (l : StreamListener) : list Action :=
  match terminal_status ev with
  | Some status =>
      if spanEnded l then [] else [SetStatus (l_span l) status; SpanEnd (l_span l)]
  | None => []
  end.

Definition listener_after (ev : StreamEvent) (l : StreamListener) : StreamListener :=
  match terminal_status ev with
  | Some _ => if spanEnded l then l else {| l_span := l_span l; spanEnded := true |}
  | None => l
  end.

Definition set_listeners (ls : list StreamListener) (call : ServerCallWithMeta)
    : ServerCallWithMeta :=
  {| metadata := metadata call; sendMetadata := sendMetadata call; listeners := ls |}.

Definition emit_actions (ev : StreamEvent) (ls : list StreamListener) : list Action :=
  flat_map (listener_actions ev) ls.

Definition call_after (ev : StreamEvent) (call : ServerCallWithMeta) : ServerCallWithMeta :=
  set_listeners (map (listener_after ev) (listeners call)) call.

Fixpoint deliver_actions (evs : list StreamEvent) (ls : list StreamListener) : list Action :=
  match evs with
  | [] => []
  | ev :: rest =>
      emit_actions ev ls ++ deliver_actions rest (map (listener_after ev) ls)
  end.

Definition step_actions (mc : metadataCaptureType) (callback : CallbackFn)
    (step : HandlerStep) (call : ServerCallWithMeta) : list Action :=
  match step with
  | CallSendMetadata responseMetadata =>
      sendMetadata_actions mc (sendMetadata call) responseMetadata
  | InvokeCallback err value => callback_actions callback err value
  | EmitEvent ev => emit_actions ev (listeners call)
  end.

Definition step_call (step : HandlerStep) (call : ServerCallWithMeta) : ServerCallWithMeta :=
  match step with
  | EmitEvent ev => call_after ev call
  | _ => call
  end.

Fixpoint steps_actions (mc : metadataCaptureType) (callback : CallbackFn)
    (steps : list HandlerStep) (call : ServerCallWithMeta) : list Action :=
  match steps with
  | [] => []
  | step :: rest =>
      step_actions mc callback step call
      ++ steps_actions mc callback rest (step_call step call)
  end.

Fixpoint steps_call (steps : list HandlerStep) (call : ServerCallWithMeta) : ServerCallWithMeta :=
  match steps with
  | [] => call
  | step :: rest => steps_call rest (step_call step call)
  end.



(** What the wrapper of [handlerSet.func] does before it looks at the call
    shape, for a call that is traced (lines 200-242), with [span] the new
    span. *)
Definition server_preamble (mc : metadataCaptureType) (name : string)
    (call : ServerCallWithMeta) (span : nat) : list Action :=
  [DiagDebug ("patch func: " +:+ spanOptions_json);
   PropagationExtract (metadata call);
   StartSpan span ("grpc." +:+ Str.remove_first_slash name) SERVER;
   SetAttributes span
     [(SemanticAttributes.RPC_SYSTEM, AttrString AttributeValues.RPC_SYSTEM);
      (SemanticAttributes.RPC_METHOD,
       attr_of_option (method (_extractMethodAndService (Some name))));
      (SemanticAttributes.RPC_SERVICE,
       attr_of_option (service (_extractMethodAndService (Some name))))]]
  ++ captured (mc_type (captureRequestMetadata (server mc))) span (metadata call)
       (mc_keys (captureRequestMetadata (server mc))).

(** The world after one span was started and the actions [d] were added. *)
Definition traced_world (d : list Action) (w : World) : World :=
  {| config := config w; _metadataCapture := _metadataCapture w;
     active := active w; nextSpan := S (nextSpan w); log := log w ++ d |}.

(** Whether the wrapper of [handlerSet.func] skips tracing in world [w]. *)
Definition ignored_in (w : World) (name : string) : bool :=
  _methodIsIgnored (registered_method name) (ignoreGrpcMethods (config w)).

(** *** The client side *)

(** The number of [clientMethodTrace] wrappers around a client method, and
    what the library's own method returns. *)
Fixpoint client_layers (f : GrpcClientFunc) : nat :=
  match f with
  | ClientMethodOrig _ _ => 0
  | clientMethodTrace original => S (client_layers original)
  end.

Fixpoint client_result (f : GrpcClientFunc) : Value :=
  match f with
  | ClientMethodOrig _ result => result
  | clientMethodTrace original => client_result original
  end.

Section ClientActions.

Variable URI_REGEX_exec : string → option (string * string).
Variable parseInt : string → AttributeValue.

(** What [clientMethodTrace] does before it hands over to the remote call
    (lines 328-360), with [span] the new span. *)
Definition client_preamble (mc : metadataCaptureType) (original : GrpcClientFunc)
    (this : ClientInstance) (args : list ClientArg) (span : nat) : list Action :=
  [StartSpan span
     ("grpc." +:+ match path_of original with
                  | Some path => Str.remove_first_slash path
                  | None => "undefined"
                  end) CLIENT;
   SetAttributes span
     [(SemanticAttributes.RPC_SYSTEM, AttrString AttributeValues.RPC_SYSTEM);
      (SemanticAttributes.RPC_METHOD,
       attr_of_option (method (_extractMethodAndService (path_of original))));
      (SemanticAttributes.RPC_SERVICE,
       attr_of_option (service (_extractMethodAndService (path_of original))))]]
  ++ match URI_REGEX_exec (getTarget this) with
     | Some (peer_name, peer_port) =>
         [SetAttribute span SemanticAttributes.NET_PEER_NAME (AttrString peer_name);
          SetAttribute span SemanticAttributes.NET_PEER_PORT (parseInt peer_port)]
     | None => []
     end
  ++ captured (mc_type (captureRequestMetadata (client mc))) span
       (getMetadata original args) (mc_keys (captureRequestMetadata (client mc))).

Fixpoint client_actions (mc : metadataCaptureType) (ctx : Context) (next : nat)
    (f : GrpcClientFunc) (this : ClientInstance) (args : list ClientArg) : list Action :=
  match f with
  | ClientMethodOrig path _ => [CallOriginalClientMethod path args ctx]
  | clientMethodTrace original =>
      client_preamble mc original this args next
      ++ client_actions mc (SpanContext next ctx) (S next) original this args
  end.

End ClientActions.

(** The method list [_getMethodsToWrap] builds under a configuration. *)
Definition methods_to_wrap (cfg : GrpcInstrumentationConfig) (client : Client)
    (methods : Methods) : list string :=
  flat_map (fun entry => methods_of_entry cfg client (fst entry) (snd entry)) methods.

Fixpoint occurrences (m : string) (names : list string) : nat :=
  match names with
  | [] => 0
  | name :: rest => (if String.eqb name m then 1 else 0) + occurrences m rest
  end.

(** The prototype [_massWrap] leaves, and the diagnostics it logs. *)
Fixpoint mass_wrapped (proto : gmap string GrpcClientFunc) (names : list string)
    : gmap string GrpcClientFunc :=
  match names with
  | [] => proto
  | name :: rest =>
      mass_wrapped
        match proto !! name with
        | Some f => <[name := clientMethodTrace f]> proto
        | None => proto
        end rest
  end.

Fixpoint mass_wrap_actions (proto : gmap string GrpcClientFunc) (names : list string)
    : list Action :=
  match names with
  | [] => []
  | name :: rest =>
      match proto !! name with
      | Some f =>
          DiagDebug "patch all client methods"
          :: mass_wrap_actions (<[name := clientMethodTrace f]> proto) rest
      | None => mass_wrap_actions proto rest
      end
  end.

(** The world after [spans] spans were started and the actions [d] added. *)
Definition advanced_world (spans : nat) (d : list Action) (w : World) : World :=
  {| config := config w; _metadataCapture := _metadataCapture w;
     active := active w; nextSpan := nextSpan w + spans; log := log w ++ d |}.

(** ** Sample inputs *)

Module Sample.

(** A call as the library hands it to a handler. *)
Definition call : ServerCallWithMeta :=
  {| metadata := [("user-agent", MdString "grpc-node/1.24")];
     sendMetadata := SendMetadataOrig VUndefined;
     listeners := [] |}.

Definition failure : ServiceError :=
  {| err_name := "Error"; err_message := "not found" |}.

(** A unary handler that sends its headers and then fails. *)
Definition failing_handler : UserHandler :=
  {| h_steps := [CallSendMetadata [("x-served-by", MdString "a")];
                 InvokeCallback (Some failure) VUndefined];
     h_result := VUndefined |}.

(** A streaming handler whose call fails, then finishes. *)
Definition streaming_handler : UserHandler :=
  {| h_steps := [EmitEvent (EvData (VString "chunk")); EmitEvent (EvError failure)];
     h_result := VUndefined |}.

Definition world : World := new_GrpcNativeInstrumentation None.

(** A handler registered as [/pkg.Service/Get] with a type that is none
    of the four call shapes; the registration returned [true]. *)
Definition duplex_func : HandlerFn :=
  func_patched "/pkg.Service/Get" "duplex" (VBool true) (HandlerOrig failing_handler).

(** The wrapper around a [sendMetadata] that returns a value. *)
Definition sendMetadata_wrapped : SendMetadataFn :=
  SendMetadataPatched 0 (SendMetadataOrig (VString "sent")).

(** A world whose configuration ignores the method [Check]. *)
Definition ignoring_world : World :=
  new_GrpcNativeInstrumentation
    (Some {| ignoreGrpcMethods := Some [MatchString "Check"];
             metadataToSpanAttributes := None |}).

Definition health_check : GrpcClientFunc :=
  ClientMethodOrig (Some "/grpc.health.v1.Health/Check") (VString "SERVING").

(** The client the library generates: each method under both names. *)
Definition library_client (methods : Methods) (serviceName : string)
    (options : Value) : Client :=
  {| prototype := <["check" := health_check]> (<["Check" := health_check]> ∅) |}.

Definition methods : Methods := [("check", {| originalName := Some "Check" |})].

Definition generated : Client :=
  fst (invoke_makeClientConstructor
         (makeClientConstructor_patched (MakeClientOrig library_client))
         methods "Health" VUndefined world).

(** The world after a later [setConfig] that ignores [check]. *)
Definition reconfigured : World :=
  snd (setConfig (Some {| ignoreGrpcMethods := Some [MatchString "check"];
                          metadataToSpanAttributes := None |}) world).

Definition no_uri (target : string) : option (string * string) := None.
Definition no_int (digits : string) : AttributeValue := AttrUndefined.
Definition instance : ClientInstance := {| getTarget := "dns:localhost:50051" |}.

(** The library's [register]: [false] for a name already registered. *)
Definition library_register (handlers : gmap string HandlerSet)
    (args : RegisterArgs) : Value * gmap string HandlerSet :=
  match handlers !! r_name args with
  | Some _ => (VBool false, handlers)
  | None =>
      (VBool true,
       <[r_name args := {| func := r_handler args; hs_type := r_type args |}]> handlers)
  end.

Definition grpc : GrpcModule :=
  {| Server_prototype_register := RegisterOrig library_register;
     makeGenericClientConstructor := MakeClientOrig library_client |}.

Definition grpc_client_js : GrpcInternalClientTypes :=
  {| makeClientConstructor := MakeClientOrig library_client |}.

End Sample.

(** ** Wrappers, counted *)

Fixpoint register_layers (f : RegisterFn) : nat :=
  match f with
  | RegisterOrig _ => 0
  | register_patched originalRegister => S (register_layers originalRegister)
  end.

(** The library's own [register] under the wrappers. *)
Fixpoint register_impl (f : RegisterFn)
    : gmap string HandlerSet → RegisterArgs → Value * gmap string HandlerSet :=
  match f with
  | RegisterOrig impl => impl
  | register_patched originalRegister => register_impl originalRegister
  end.

Fixpoint factory_layers (f : MakeClientConstructorFn) : nat :=
  match f with
  | MakeClientOrig _ => 0
  | makeClientConstructor_patched original => S (factory_layers original)
  end.

Fixpoint handler_layers (f : HandlerFn) : nat :=
  match f with
  | HandlerOrig _ => 0
  | func_patched _ _ _ originalFunc => S (handler_layers originalFunc)
  end.

Definition is_known_shape (type : string) : bool :=
  is_unary_or_client_stream type || is_server_stream_or_bidi type.

(** The wrappers of a handler that start a span under a configuration: a
    wrapper starts one unless its method is ignored, and hands over to the
    function it wraps only for the four call shapes. *)
Fixpoint traced_layers (cfg : GrpcInstrumentationConfig) (f : HandlerFn) : nat :=
  match f with
  | HandlerOrig _ => 0
  | func_patched name type _ originalFunc =>
      (if _methodIsIgnored (registered_method name) (ignoreGrpcMethods cfg)
       then 0 else 1)
      + (if is_known_shape type then traced_layers cfg originalFunc else 0)
  end.

(** Whether a call of the handler reaches the user's function. *)
Fixpoint reaches_original (f : HandlerFn) : bool :=
  match f with
  | HandlerOrig _ => true
  | func_patched _ type _ originalFunc =>
      is_known_shape type && reaches_original originalFunc
  end.

Definition is_SetAttribute (a : Action) : bool :=
  match a with SetAttribute _ _ _ => true | _ => false end.

Definition is_SpanEnd (a : Action) : bool :=
  match a with SpanEnd _ => true | _ => false end.

Module Duplicate.
(** [register('/pkg.Service/Get', handler, ..., 'unary')], called twice on
    one server through the wrapped [register]. *)
Definition args : RegisterArgs :=
  {| r_name := "/pkg.Service/Get";
     r_handler := HandlerOrig Sample.failing_handler;
     r_type := "unary" |}.

Definition patched_register : RegisterFn :=
  register_patched (RegisterOrig Sample.library_register).

Definition registered_once : gmap string HandlerSet :=
  snd (fst (invoke_register patched_register ∅ args Sample.world)).

Definition registered_twice : gmap string HandlerSet :=
  snd (fst (invoke_register patched_register registered_once args Sample.world)).
End Duplicate.



(** The library's own factory under the wrappers. *)
Fixpoint factory_impl (f : MakeClientConstructorFn) : Methods → string → Value → Client :=
  match f with
  | MakeClientOrig impl => impl
  | makeClientConstructor_patched original => factory_impl original
  end.


(** ** The stub of the module-hook tests

    [makeOnRequiresStub] of the tests of [RequireInTheMiddleSingleton]
    (src/unnamed/part_000, lines 27-32): the [onRequire] callback it builds
    records its label on the exports it is given and returns them. *)
Record AugmentedExports := {
  module_exports : Value;
  __ritmOnRequires : option (list string)
}.

Definition makeOnRequiresStub (label : string) (exports : AugmentedExports)
    : AugmentedExports :=
  {| module_exports := module_exports exports;
     __ritmOnRequires :=
       Some (match __ritmOnRequires exports with
             | Some labels => labels
             | None => []
             end ++ [label]) |}.

(** * Properties *)

(** ** Strings *)

Lemma split_last_slash_none (s : string) :
  Str.has_slash s = false → Str.split_last_slash s = None.
Proof.
  induction s as [|c rest IH]; simpl; [done|].
  intros H. apply orb_false_iff in H as [Hc Hrest].
  by rewrite (IH Hrest), Hc.
Qed.

Lemma split_last_slash_app (before after : string) :
  Str.has_slash after = false →
  Str.split_last_slash (before +:+ String Str.slash after) = Some (before, after).
Proof.
  intros Hafter. induction before as [|c rest IH]; simpl.
  - by rewrite (split_last_slash_none after Hafter).
  - by rewrite IH.
Qed.

(** ** The log monad *)

Lemma add_log_nil (w : World) : add_log [] w = w.
Proof. destruct w; unfold add_log; simpl. by rewrite app_nil_r. Qed.

Lemma add_log_app (d1 d2 : list Action) (w : World) :
  add_log d2 (add_log d1 w) = add_log (d1 ++ d2) w.
Proof. unfold add_log; simpl. by rewrite app_assoc. Qed.

Ltac world_eq :=
  unfold add_log; simpl; rewrite <- ?app_assoc; simpl; repeat f_equal; done.

Lemma emit_run (a : Action) (w : World) : emit a w = (tt, add_log [a] w).
Proof. reflexivity. Qed.


Lemma count_app (p : Action → bool) (l1 l2 : list Action) :
  count p (l1 ++ l2) = count p l1 + count p l2.
Proof. induction l1 as [|a l1 IH]; simpl; [done|]. rewrite IH. lia. Qed.

Lemma count_none (p q : Action → bool) (l : list Action) :
  (∀ a, q a = true → p a = false) →
  Forall (fun a => q a = true) l → count p l = 0.
Proof.
  intros Hpq. induction 1 as [|a l Ha _ IH]; simpl; [done|].
  by rewrite (Hpq a Ha), IH.
Qed.

(** ** C8: method and service of a path *)

(** C8. For a path [/<service>/<method>], the extractor cuts at the last
    ['/']: the service is what stands before it (whatever dots or slashes it
    has) and the method is the remainder; an empty or undefined path gives
    two undefined fields, and the function is total. *)
Theorem extract_method_and_service (svc meth : string) :
  Str.has_slash meth = false →
  _extractMethodAndService (Some ("/" +:+ svc +:+ "/" +:+ meth))
    = {| service := Some svc; method := Some meth |}
  ∧ _extractMethodAndService (Some "") = {| service := None; method := None |}
  ∧ _extractMethodAndService None = {| service := None; method := None |}.
Proof.
  intros Hmeth. split; [|done].
  change ("/" +:+ svc +:+ "/" +:+ meth)
    with (String Str.slash (svc +:+ String Str.slash meth)).
  unfold _extractMethodAndService, Str.drop_leading_slash.
  rewrite Ascii.eqb_refl.
  by rewrite (split_last_slash_app svc meth Hmeth).
Qed.

Lemma extract_method_and_service_witness :
  Str.has_slash "Method" = false
  ∧ _extractMethodAndService (Some "/pkg.Sub.Service/Method")
    = {| service := Some "pkg.Sub.Service"; method := Some "Method" |}.
Proof.
  split; [reflexivity|].
  exact (proj1 (extract_method_and_service "pkg.Sub.Service" "Method" eq_refl)).
Defined.

(** ** C9: metadata capture *)

Lemma capture_keys_run (type : string) (span : nat) (md : Metadata)
    (keys : list string) (w : World) :
  capture_keys type span md keys w = (tt, add_log (captured type span md keys) w).
Proof.
  revert w. induction keys as [|key rest IH]; intros w; simpl.
  - by rewrite add_log_nil.
  - unfold bind, captured; simpl. destruct (metadata_get key md) as [v|]; simpl.
    + rewrite IH. world_eq.
    + rewrite IH. done.
Qed.


Lemma captured_only_setAttribute (type : string) (span : nat) (md : Metadata)
    (keys : list string) :
  Forall (fun a => ∃ key v, a = SetAttribute span (metadata_attribute type key) (attr_of_metadata v)
                            ∧ key ∈ keys ∧ metadata_get key md = Some v)
         (captured type span md keys).
Proof.
  induction keys as [|key rest IH]; unfold captured; simpl; [constructor|].
  destruct (metadata_get key md) as [v|] eqn:Hget; simpl.
  - constructor.
    + exists key, v. split; [done|]. split; [left|done].
    + eapply Forall_impl; [exact IH|]. intros a (k & v' & ? & ? & ?).
      exists k, v'. split; [done|]. split; [by right|done].
  - eapply Forall_impl; [exact IH|]. intros a (k & v' & ? & ? & ?).
    exists k, v'. split; [done|]. split; [by right|done].
Qed.





(** The example of the spec: a carrier with [a] and [b], configured keys [a]
    and [c]: one attribute, for [a]. *)
Example metadata_capture_example (w : World) :
  invoke_metadataCapture (metadataCapture "request" ["a"; "c"]) 7
    [("a", MdString "1"); ("b", MdString "2")] w
  = (tt, add_log [SetAttribute 7 "rpc.request.metadata.a" (AttrString "1")] w).
Proof. reflexivity. Qed.

(** ** The handler's steps, in terms of the actions they add *)

Lemma invoke_callback_run (cb : CallbackFn) (err : option ServiceError)
    (value : Value) (w : World) :
  invoke_callback cb err value w = (VUndefined, add_log (callback_actions cb err value) w).
Proof.
  revert w. induction cb as [| |span cb IH]; intros w; simpl.
  - by rewrite add_log_nil.
  - done.
  - unfold bind; simpl. rewrite IH. world_eq.
Qed.

Lemma invoke_sendMetadata_run (f : SendMetadataFn) (md : Metadata) (w : World) :
  invoke_sendMetadata f md w
  = (match f with SendMetadataOrig result => result | _ => VUndefined end,
     add_log (sendMetadata_actions (_metadataCapture w) f md) w).
Proof.
  revert w. induction f as [result|span f IH]; intros w; simpl; [done|].
  unfold bind, get_metadataCapture, invoke_metadataCapture; simpl.
  rewrite capture_keys_run, IH. simpl. f_equal. by rewrite add_log_app.
Qed.

Lemma run_listener_run (ev : StreamEvent) (l : StreamListener) (w : World) :
  run_listener ev l w = (listener_after ev l, add_log (listener_actions ev l) w).
Proof.
  unfold run_listener, listener_after, listener_actions.
  destruct (terminal_status ev) as [status|]; [destruct (spanEnded l)|];
    unfold bind, ret; simpl; rewrite ?add_log_nil; try done.
  f_equal. world_eq.
Qed.

Lemma run_listeners_run (ev : StreamEvent) (ls : list StreamListener) (w : World) :
  run_listeners ev ls w = (map (listener_after ev) ls, add_log (emit_actions ev ls) w).
Proof.
  revert w. induction ls as [|l rest IH]; intros w.
  - simpl. by rewrite add_log_nil.
  - change (emit_actions ev (l :: rest))
      with (listener_actions ev l ++ emit_actions ev rest).
    simpl. unfold bind. rewrite run_listener_run, IH. unfold ret.
    by rewrite add_log_app.
Qed.

Lemma call_emit_run (ev : StreamEvent) (call : ServerCallWithMeta) (w : World) :
  call_emit ev call w = (call_after ev call, add_log (emit_actions ev (listeners call)) w).
Proof. unfold call_emit, bind. by rewrite run_listeners_run. Qed.

Lemma run_step_run (cb : CallbackFn) (step : HandlerStep)
    (call : ServerCallWithMeta) (w : World) :
  run_step cb step call w
  = (step_call step call, add_log (step_actions (_metadataCapture w) cb step call) w).
Proof.
  destruct step as [md|err value|ev]; simpl; unfold bind.
  - by rewrite invoke_sendMetadata_run.
  - by rewrite invoke_callback_run.
  - by rewrite call_emit_run.
Qed.

Lemma run_steps_run (cb : CallbackFn) (steps : list HandlerStep)
    (call : ServerCallWithMeta) (w : World) :
  run_steps cb steps call w
  = (steps_call steps call,
     add_log (steps_actions (_metadataCapture w) cb steps call) w).
Proof.
  revert call w. induction steps as [|step rest IH]; intros call w; simpl.
  - by rewrite add_log_nil.
  - unfold bind. rewrite run_step_run, IH. simpl. by rewrite add_log_app.
Qed.


(** ** The wrapper of [handlerSet.func] *)

Lemma invoke_user_handler_run (h : UserHandler) (call : ServerCallWithMeta)
    (cb : CallbackFn) (w : World) :
  invoke_user_handler h call cb w
  = ((h_result h, steps_call (h_steps h) call),
     add_log (CallOriginalFunc h call cb (active w)
              :: steps_actions (_metadataCapture w) cb (h_steps h) call) w).
Proof.
  unfold invoke_user_handler, bind, context_active. rewrite emit_run.
  rewrite run_steps_run. simpl. unfold ret. by rewrite add_log_app.
Qed.

Lemma func_ignored (name type : string) (originalResult : Value)
    (originalFunc : HandlerFn) (call : ServerCallWithMeta) (cb : CallbackFn)
    (w : World) :
  ignored_in w name = true →
  invoke_func (func_patched name type originalResult originalFunc) call cb w
  = if is_unary_or_client_stream type then invoke_func originalFunc call cb w
    else if is_server_stream_or_bidi type
    then invoke_func originalFunc call UndefinedCallback w
    else ((originalResult, call), w).
Proof.
  unfold ignored_in. intros Hign. simpl.
  unfold bind, shouldNotTraceServerCall, bind, getConfig, ret. rewrite Hign.
  by destruct (is_unary_or_client_stream type), (is_server_stream_or_bidi type).
Qed.

Lemma func_traced_unary (name type : string) (originalResult : Value)
    (h : UserHandler) (call : ServerCallWithMeta) (cb : CallbackFn) (w : World) :
  ignored_in w name = false →
  is_unary_or_client_stream type = true →
  let span := nextSpan w in
  let call1 := set_sendMetadata (SendMetadataPatched span (sendMetadata call)) call in
  let cb1 := patchedCallback span cb in
  invoke_func (func_patched name type originalResult (HandlerOrig h)) call cb w
  = ((VUndefined, steps_call (h_steps h) call1),
     traced_world
       (server_preamble (_metadataCapture w) name call span
        ++ CallOriginalFunc h call1 cb1
             (SpanContext span (Extracted (metadata call) (active w)))
           :: steps_actions (_metadataCapture w) cb1 (h_steps h) call1) w).
Proof.
  intros Hign Htype span call1 cb1. unfold ignored_in in Hign. simpl.
  unfold bind, shouldNotTraceServerCall, bind, getConfig, ret. rewrite Hign, Htype.
  unfold diag_debug, context_active, propagation_extract, bind, ret, context_with,
    tracer_startSpan, span_setAttributes, get_metadataCapture, invoke_metadataCapture,
    bind, ret, _wrap, bind, ret, clientStreamAndUnaryHandler.
  simpl. rewrite capture_keys_run. simpl.
  rewrite invoke_user_handler_run. simpl.
  f_equal. unfold traced_world, server_preamble, set_active, add_log. simpl.
  f_equal. rewrite <- !app_assoc. simpl. done.
Qed.

Lemma stream_not_unary (type : string) :
  is_server_stream_or_bidi type = true → is_unary_or_client_stream type = false.
Proof.
  unfold is_server_stream_or_bidi, is_unary_or_client_stream.
  intros H. apply orb_true_iff in H as [H|H]; apply String.eqb_eq in H; by subst.
Qed.

Lemma func_traced_stream (name type : string) (originalResult : Value)
    (h : UserHandler) (call : ServerCallWithMeta) (cb : CallbackFn) (w : World) :
  ignored_in w name = false →
  is_server_stream_or_bidi type = true →
  let span := nextSpan w in
  let call1 := set_sendMetadata (SendMetadataPatched span (sendMetadata call)) call in
  let call2 := set_listeners (listeners call ++ [{| l_span := span; spanEnded := false |}]) call1 in
  invoke_func (func_patched name type originalResult (HandlerOrig h)) call cb w
  = ((VUndefined, steps_call (h_steps h) call2),
     traced_world
       (server_preamble (_metadataCapture w) name call span
        ++ CallOriginalFunc h call2 UndefinedCallback
             (SpanContext span (Extracted (metadata call) (active w)))
           :: steps_actions (_metadataCapture w) UndefinedCallback (h_steps h) call2) w).
Proof.
  intros Hign Htype span call1 call2. unfold ignored_in in Hign.
  pose proof (stream_not_unary type Htype) as Hunary. simpl.
  unfold bind, shouldNotTraceServerCall, bind, getConfig, ret.
  rewrite Hign, Hunary, Htype.
  unfold diag_debug, context_active, propagation_extract, bind, ret, context_with,
    tracer_startSpan, span_setAttributes, get_metadataCapture, invoke_metadataCapture,
    bind, ret, _wrap, bind, ret, serverStreamAndBidiHandler.
  simpl. rewrite capture_keys_run. simpl.
  rewrite invoke_user_handler_run. simpl.
  f_equal. unfold traced_world, server_preamble, set_active, add_log. simpl.
  f_equal. rewrite <- !app_assoc. simpl. done.
Qed.

Lemma func_traced_other (name type : string) (originalResult : Value)
    (originalFunc : HandlerFn) (call : ServerCallWithMeta) (cb : CallbackFn)
    (w : World) :
  ignored_in w name = false →
  is_unary_or_client_stream type = false →
  is_server_stream_or_bidi type = false →
  invoke_func (func_patched name type originalResult originalFunc) call cb w
  = ((VUndefined,
      set_sendMetadata (SendMetadataPatched (nextSpan w) (sendMetadata call)) call),
     traced_world (server_preamble (_metadataCapture w) name call (nextSpan w)) w).
Proof.
  intros Hign Hunary Hstream. unfold ignored_in in Hign. simpl.
  unfold bind, shouldNotTraceServerCall, bind, getConfig, ret.
  rewrite Hign, Hunary, Hstream.
  unfold diag_debug, context_active, propagation_extract, bind, ret, context_with,
    tracer_startSpan, span_setAttributes, get_metadataCapture, invoke_metadataCapture,
    bind, ret, _wrap, bind, ret.
  simpl. rewrite capture_keys_run. simpl.
  f_equal. unfold traced_world, server_preamble, set_active, add_log. simpl.
  f_equal. rewrite <- !app_assoc. simpl. done.
Qed.

(** ** What the steps of a handler can add to the log *)

Lemma captured_completion (type : string) (span : nat) (md : Metadata)
    (keys : list string) :
  Forall (fun a => is_completion a = true ∧ is_CallOriginalCallback a = false
                   ∧ ∀ s, neutral_for s a = true)
         (captured type span md keys).
Proof.
  eapply Forall_impl; [apply captured_only_setAttribute|].
  by intros a (? & ? & -> & _).
Qed.

Lemma sendMetadata_actions_completion (mc : metadataCaptureType)
    (f : SendMetadataFn) (md : Metadata) :
  Forall (fun a => is_completion a = true ∧ is_CallOriginalCallback a = false
                   ∧ ∀ s, neutral_for s a = true)
         (sendMetadata_actions mc f md).
Proof.
  induction f as [result|span f IH]; simpl.
  - by repeat constructor.
  - apply Forall_app. split; [apply captured_completion|exact IH].
Qed.

Lemma callback_actions_completion (cb : CallbackFn) (err : option ServiceError)
    (value : Value) :
  Forall (fun a => is_completion a = true) (callback_actions cb err value).
Proof. induction cb; simpl; by repeat constructor. Qed.

Lemma emit_actions_completion (ev : StreamEvent) (ls : list StreamListener) :
  Forall (fun a => is_completion a = true ∧ is_CallOriginalCallback a = false)
         (emit_actions ev ls).
Proof.
  induction ls as [|l rest IH]; [constructor|].
  change (emit_actions ev (l :: rest))
    with (listener_actions ev l ++ emit_actions ev rest).
  apply Forall_app. split; [|exact IH].
  unfold listener_actions.
  destruct (terminal_status ev); [destruct (spanEnded l)|]; by repeat constructor.
Qed.

Lemma steps_actions_app (mc : metadataCaptureType) (cb : CallbackFn)
    (s1 s2 : list HandlerStep) (call : ServerCallWithMeta) :
  steps_actions mc cb (s1 ++ s2) call
  = steps_actions mc cb s1 call ++ steps_actions mc cb s2 (steps_call s1 call).
Proof.
  revert call. induction s1 as [|step rest IH]; intros call; simpl; [done|].
  by rewrite IH, app_assoc.
Qed.


Lemma steps_actions_completion (mc : metadataCaptureType) (cb : CallbackFn)
    (steps : list HandlerStep) (call : ServerCallWithMeta) :
  Forall (fun a => is_completion a = true) (steps_actions mc cb steps call).
Proof.
  revert call. induction steps as [|step rest IH]; intros call; simpl; [constructor|].
  apply Forall_app. split; [|apply IH].
  destruct step as [md|err value|ev]; simpl.
  - eapply Forall_impl; [apply sendMetadata_actions_completion|]. by intros a [? _].
  - apply callback_actions_completion.
  - eapply Forall_impl; [apply emit_actions_completion|]. by intros a [? _].
Qed.

Lemma steps_actions_no_callback (mc : metadataCaptureType) (cb : CallbackFn)
    (steps : list HandlerStep) (call : ServerCallWithMeta) :
  Forall (fun step => is_InvokeCallback step = false) steps →
  count is_CallOriginalCallback (steps_actions mc cb steps call) = 0.
Proof.
  intros Hsteps. revert call.
  induction Hsteps as [|step rest Hstep _ IH]; intros call; simpl; [done|].
  rewrite count_app, IH, Nat.add_0_r.
  apply (count_none _ (fun a => negb (is_CallOriginalCallback a))).
  { intros a. by destruct (is_CallOriginalCallback a). }
  destruct step as [md|err value|ev]; simpl; [|done|].
  - eapply Forall_impl; [apply sendMetadata_actions_completion|].
    by intros a (_ & -> & _).
  - eapply Forall_impl; [apply emit_actions_completion|]. by intros a (_ & ->).
Qed.

Lemma completion_no_StartSpan (d : list Action) :
  Forall (fun a => is_completion a = true) d → count is_StartSpan d = 0.
Proof. apply count_none. by intros []. Qed.

Lemma completion_no_CallOriginalFunc (d : list Action) :
  Forall (fun a => is_completion a = true) d → count is_CallOriginalFunc d = 0.
Proof. apply count_none. by intros []. Qed.

Lemma preamble_one_StartSpan (mc : metadataCaptureType) (name : string)
    (call : ServerCallWithMeta) (span : nat) :
  count is_StartSpan (server_preamble mc name call span) = 1
  ∧ count is_CallOriginalFunc (server_preamble mc name call span) = 0
  ∧ count is_CallOriginalCallback (server_preamble mc name call span) = 0.
Proof.
  unfold server_preamble. rewrite !count_app. simpl.
  pose proof (captured_completion (mc_type (captureRequestMetadata (server mc))) span
                (metadata call) (mc_keys (captureRequestMetadata (server mc)))) as Hc.
  rewrite (completion_no_StartSpan _ (Forall_impl _ _ _ Hc (fun a H => proj1 H))).
  rewrite (completion_no_CallOriginalFunc _ (Forall_impl _ _ _ Hc (fun a H => proj1 H))).
  split; [done|]. split; [done|].
  apply (count_none _ (fun a => negb (is_CallOriginalCallback a))).
  { intros a. by destruct (is_CallOriginalCallback a). }
  eapply Forall_impl; [exact Hc|]. by intros a (_ & -> & _).
Qed.

(** ** C4: a unary call that fails *)

(** C4. For a unary or client-streaming call that is traced (the ignore list
    does not exclude it) and whose handler completes with an error, that is,
    calls back for the first time with [(e, v)]: exactly one span is started
    for the call; the status of that span is set to the error status with the
    message of [e] and the span is ended, and only then the original callback
    is called, with the same [(e, v)]. *)
Theorem unary_error_ends_span_before_callback
    (name type : string) (originalResult : Value) (h : UserHandler)
    (call : ServerCallWithMeta) (w : World)
    (pre post : list HandlerStep) (e : ServiceError) (v : Value) :
  ignored_in w name = false →
  is_unary_or_client_stream type = true →
  h_steps h = pre ++ InvokeCallback (Some e) v :: post →
  Forall (fun step => is_InvokeCallback step = false) pre →
  let span := nextSpan w in
  let w' := snd (invoke_func (func_patched name type originalResult (HandlerOrig h))
                   call SendUnaryData w) in
  ∃ before after,
    log w' = log w ++ before
             ++ [SetStatus span (StatusError (err_message e)); SpanEnd span;
                 CallOriginalCallback (Some e) v]
             ++ after
    ∧ StartSpan span ("grpc." +:+ Str.remove_first_slash name) SERVER ∈ before
    ∧ count is_StartSpan before = 1
    ∧ count is_StartSpan after = 0
    ∧ count is_CallOriginalCallback before = 0
    ∧ nextSpan w' = S (nextSpan w).
Proof.
  intros Hign Htype Hsteps Hpre span w'. subst w'.
  rewrite (func_traced_unary name type originalResult h call SendUnaryData w Hign Htype).
  rewrite Hsteps, steps_actions_app. simpl.
  set (call1 := set_sendMetadata (SendMetadataPatched (nextSpan w) (sendMetadata call)) call).
  set (cb1 := patchedCallback (nextSpan w) SendUnaryData).
  set (mc := _metadataCapture w).
  exists (server_preamble mc name call span
          ++ CallOriginalFunc (h) call1 cb1
               (SpanContext span (Extracted (metadata call) (active w)))
             :: steps_actions mc cb1 pre call1),
         (steps_actions mc cb1 post (step_call (InvokeCallback (Some e) v)
                                      (steps_call pre call1))).
  destruct (preamble_one_StartSpan mc name call span) as (Hstart & _ & Hcb).
  split; [by rewrite <- !app_assoc|].
  split.
  { apply elem_of_app. left. unfold server_preamble. apply elem_of_app. left.
    do 2 right. left. }
  split.
  { rewrite count_app, Hstart. simpl.
    by rewrite (completion_no_StartSpan _ (steps_actions_completion mc cb1 pre call1)). }
  split; [apply completion_no_StartSpan, steps_actions_completion|].
  split; [|done].
  rewrite count_app, Hcb. simpl. by apply steps_actions_no_callback.
Qed.

Lemma unary_error_ends_span_before_callback_witness :
  ∃ before after,
    log (snd (invoke_func
                (func_patched "/pkg.Service/Get" "unary" (VBool true)
                   (HandlerOrig Sample.failing_handler))
                Sample.call SendUnaryData Sample.world))
    = log Sample.world ++ before
      ++ [SetStatus 0 (StatusError "not found"); SpanEnd 0;
          CallOriginalCallback (Some Sample.failure) VUndefined]
      ++ after
    ∧ StartSpan 0 "grpc.pkg.Service/Get" SERVER ∈ before
    ∧ count is_StartSpan before = 1
    ∧ count is_StartSpan after = 0
    ∧ count is_CallOriginalCallback before = 0.
Proof.
  destruct (unary_error_ends_span_before_callback
              "/pkg.Service/Get" "unary" (VBool true) Sample.failing_handler
              Sample.call Sample.world
              [CallSendMetadata [("x-served-by", MdString "a")]] []
              Sample.failure VUndefined
              eq_refl eq_refl eq_refl
              ltac:(by repeat constructor))
    as (before & after & Hlog & Hin & Hb & Ha & Hcb & _).
  exists before, after. repeat split; assumption.
Defined.

(** ** C6: a call shape that is none of the four *)

(** C6, as stated, fails: with a registered type that is none of the four
    shapes and a method that is not ignored, the wrapper starts a span before
    it looks at the shape, and returns [undefined] rather than what the
    registration returned ([true] here). *)
Lemma unknown_shape_traced_starts_span :
  count is_StartSpan
    (log (snd (invoke_func Sample.duplex_func Sample.call SendUnaryData Sample.world))) = 1
  ∧ fst (fst (invoke_func Sample.duplex_func Sample.call SendUnaryData Sample.world))
    = VUndefined
  ∧ fst (fst (invoke_func Sample.duplex_func Sample.call SendUnaryData Sample.world))
    ≠ VBool true.
Proof. split; [reflexivity|]. split; [reflexivity|]. discriminate. Qed.

(** C6, amended. For a registered type that is none of the four shapes the
    wrapper never calls the original handler; and when the call is excluded
    from tracing it does nothing at all (no tracing action, no span) and
    returns what the original registration returned. *)
Theorem unknown_shape_ignored_returns_registration_result
    (name type : string) (originalResult : Value) (originalFunc : HandlerFn)
    (call : ServerCallWithMeta) (cb : CallbackFn) (w : World) :
  is_unary_or_client_stream type = false →
  is_server_stream_or_bidi type = false →
  (∃ d, log (snd (invoke_func (func_patched name type originalResult originalFunc)
                    call cb w)) = log w ++ d
        ∧ count is_CallOriginalFunc d = 0)
  ∧ (ignored_in w name = true →
     invoke_func (func_patched name type originalResult originalFunc) call cb w
     = ((originalResult, call), w)).
Proof.
  intros Hunary Hstream. split.
  - destruct (ignored_in w name) eqn:Hign.
    + rewrite (func_ignored _ _ _ _ _ _ _ Hign), Hunary, Hstream.
      exists []. by rewrite app_nil_r.
    + rewrite (func_traced_other _ _ _ _ _ _ _ Hign Hunary Hstream).
      eexists. split; [reflexivity|].
      apply (preamble_one_StartSpan (_metadataCapture w) name call (nextSpan w)).
  - intros Hign. by rewrite (func_ignored _ _ _ _ _ _ _ Hign), Hunary, Hstream.
Qed.

Lemma unknown_shape_ignored_returns_registration_result_witness :
  invoke_func
    (func_patched "/grpc.health.v1.Health/Check" "duplex" (VBool true)
       (HandlerOrig Sample.failing_handler))
    Sample.call SendUnaryData Sample.ignoring_world
  = ((VBool true, Sample.call), Sample.ignoring_world).
Proof.
  exact (proj2 (unknown_shape_ignored_returns_registration_result
                  "/grpc.health.v1.Health/Check" "duplex" (VBool true)
                  (HandlerOrig Sample.failing_handler) Sample.call SendUnaryData
                  Sample.ignoring_world eq_refl eq_refl) eq_refl).
Defined.

(** ** C7: the wrapper of [call.sendMetadata] *)

(** C7, as stated, fails: the wrapper does not return what the original
    operation returned. *)
Lemma sendMetadata_wrapper_drops_result :
  fst (invoke_sendMetadata Sample.sendMetadata_wrapped [] Sample.world) = VUndefined
  ∧ fst (invoke_sendMetadata (SendMetadataOrig (VString "sent")) [] Sample.world)
    = VString "sent"
  ∧ fst (invoke_sendMetadata Sample.sendMetadata_wrapped [] Sample.world)
    ≠ fst (invoke_sendMetadata (SendMetadataOrig (VString "sent")) [] Sample.world).
Proof. split; [reflexivity|]. split; [reflexivity|]. discriminate. Qed.

(** C7, amended. Every invocation of the wrapped [sendMetadata] first
    captures the response metadata on the span, then invokes the original
    operation exactly once, with the same metadata, and returns [undefined]:
    the wrapper runs the original once from the world the capture left, and
    for the library's own operation the log grows by the captured attributes
    followed by one call of the original. *)
Theorem sendMetadata_wrapper_captures_then_delegates
    (span : nat) (original : SendMetadataFn) (result : Value)
    (md : Metadata) (w : World) :
  invoke_sendMetadata (SendMetadataPatched span original) md w
  = (VUndefined,
     snd (invoke_sendMetadata original md
            (snd (invoke_metadataCapture
                    (captureResponseMetadata (server (_metadataCapture w))) span md w))))
  ∧ invoke_sendMetadata (SendMetadataPatched span (SendMetadataOrig result)) md w
    = (VUndefined,
       add_log
         (captured (mc_type (captureResponseMetadata (server (_metadataCapture w))))
            span md (mc_keys (captureResponseMetadata (server (_metadataCapture w))))
          ++ [CallOriginalSendMetadata md]) w)
  ∧ count is_CallOriginalSendMetadata
      (captured (mc_type (captureResponseMetadata (server (_metadataCapture w))))
         span md (mc_keys (captureResponseMetadata (server (_metadataCapture w))))
       ++ [CallOriginalSendMetadata md]) = 1.
Proof.
  split; [|split].
  - simpl. unfold bind, get_metadataCapture. simpl.
    destruct (invoke_metadataCapture _ span md w) as [[] w1]. simpl.
    by destruct (invoke_sendMetadata original md w1).
  - by rewrite invoke_sendMetadata_run.
  - rewrite count_app. simpl.
    rewrite (count_none is_CallOriginalSendMetadata
               (fun a => match a with SetAttribute _ _ _ => true | _ => false end)).
    + done.
    + by intros [].
    + eapply Forall_impl; [apply captured_only_setAttribute|].
      by intros a (? & ? & -> & _).
Qed.

(** ** C3: streaming calls *)













(** ** The client side, in terms of the actions it adds *)

Section ClientFacts.

Variable URI_REGEX_exec : string → option (string * string).
Variable parseInt : string → AttributeValue.

Lemma invoke_client_method_run (f : GrpcClientFunc) (this : ClientInstance)
    (args : list ClientArg) (w : World) :
  invoke_client_method URI_REGEX_exec parseInt f this args w
  = (client_result f,
     advanced_world (client_layers f)
       (client_actions URI_REGEX_exec parseInt (_metadataCapture w) (active w)
          (nextSpan w) f this args) w).
Proof.
  revert w. induction f as [path result|original IH]; intros w.
  - simpl. unfold bind, context_active, emit, ret, advanced_world. simpl.
    by rewrite Nat.add_0_r.
  - simpl invoke_client_method.
    unfold bind, tracer_startSpan, span_setAttributes, bind, ret, emit,
      get_metadataCapture, invoke_metadataCapture, context_active, context_with,
      makeGrpcClientRemoteCall.
    cbn [fst snd _metadataCapture].
    cbn [client_layers client_result client_actions]. unfold client_preamble.
    destruct (URI_REGEX_exec (getTarget this)) as [[peer_name peer_port]|].
    + unfold span_setAttribute, bind, emit. rewrite capture_keys_run.
      cbn [add_log active set_active _metadataCapture log nextSpan config].
      rewrite IH.
      unfold advanced_world, set_active.
      cbn [add_log active set_active _metadataCapture log nextSpan config].
      f_equal. f_equal; [lia|].
      rewrite <- !app_assoc. reflexivity.
    + unfold ret. rewrite capture_keys_run.
      cbn [add_log active set_active _metadataCapture log nextSpan config].
      rewrite IH.
      unfold advanced_world, set_active.
      cbn [add_log active set_active _metadataCapture log nextSpan config].
      f_equal. f_equal; [lia|].
      rewrite <- !app_assoc. reflexivity.
Qed.

End ClientFacts.

Section ClientCounts.

Variable URI_REGEX_exec : string → option (string * string).
Variable parseInt : string → AttributeValue.

Lemma client_preamble_counts (mc : metadataCaptureType) (original : GrpcClientFunc)
    (this : ClientInstance) (args : list ClientArg) (span : nat) :
  count is_StartSpan (client_preamble URI_REGEX_exec parseInt mc original this args span) = 1
  ∧ count is_CallOriginalClientMethod
      (client_preamble URI_REGEX_exec parseInt mc original this args span) = 0.
Proof.
  unfold client_preamble. rewrite !count_app.
  pose proof (captured_only_setAttribute (mc_type (captureRequestMetadata (client mc)))
                span (getMetadata original args)
                (mc_keys (captureRequestMetadata (client mc)))) as Hc.
  assert (Hq : Forall (fun a => match a with SetAttribute _ _ _ => true | _ => false end = true)
                 (captured (mc_type (captureRequestMetadata (client mc))) span
                    (getMetadata original args)
                    (mc_keys (captureRequestMetadata (client mc))))).
  { eapply Forall_impl; [exact Hc|]. by intros a (? & ? & -> & _). }
  assert (H1 : ∀ a, match a with SetAttribute _ _ _ => true | _ => false end = true
                     → is_StartSpan a = false) by (by intros []).
  assert (H2 : ∀ a, match a with SetAttribute _ _ _ => true | _ => false end = true
                     → is_CallOriginalClientMethod a = false) by (by intros []).
  rewrite (count_none is_StartSpan _ _ H1 Hq).
  rewrite (count_none is_CallOriginalClientMethod _ _ H2 Hq).
  by destruct (URI_REGEX_exec (getTarget this)) as [[? ?]|].
Qed.

Lemma client_actions_counts (mc : metadataCaptureType) (f : GrpcClientFunc)
    (this : ClientInstance) (args : list ClientArg) :
  ∀ ctx next,
  count is_StartSpan (client_actions URI_REGEX_exec parseInt mc ctx next f this args)
  = client_layers f
  ∧ count is_CallOriginalClientMethod
      (client_actions URI_REGEX_exec parseInt mc ctx next f this args) = 1.
Proof.
  induction f as [path result|original IH]; intros ctx next; [done|].
  cbn [client_actions client_layers]. rewrite !count_app.
  destruct (client_preamble_counts mc original this args next) as [-> ->].
  by destruct (IH (SpanContext next ctx) (S next)) as [-> ->].
Qed.

End ClientCounts.

Lemma _getMethodsToWrap_run (c : Client) (methods : Methods) (w : World) :
  _getMethodsToWrap c methods w = (methods_to_wrap (config w) c methods, w).
Proof.
  induction methods as [|[name def] rest IH]; [done|].
  simpl. unfold bind, getConfig. by rewrite IH.
Qed.

Lemma _massWrap_run (proto : gmap string GrpcClientFunc) (names : list string) (w : World) :
  _massWrap proto names _getPatchedClientMethods w
  = (mass_wrapped proto names, add_log (mass_wrap_actions proto names) w).
Proof.
  revert proto w. induction names as [|name rest IH]; intros proto w; simpl.
  - by rewrite add_log_nil.
  - unfold bind. destruct (proto !! name) as [f|].
    + unfold _getPatchedClientMethods, diag_debug, bind, ret. rewrite emit_run, IH.
      by rewrite add_log_app.
    + unfold ret. by rewrite IH.
Qed.

Lemma iter_clientMethodTrace (k : nat) (f : GrpcClientFunc) :
  Nat.iter k clientMethodTrace (clientMethodTrace f)
  = clientMethodTrace (Nat.iter k clientMethodTrace f).
Proof. induction k as [|k IH]; simpl; [done|]. by rewrite IH. Qed.

Lemma client_layers_iter (k : nat) (f : GrpcClientFunc) :
  client_layers (Nat.iter k clientMethodTrace f) = k + client_layers f.
Proof. induction k as [|k IH]; simpl; [done|]. by rewrite IH. Qed.

Lemma mass_wrapped_lookup (names : list string) :
  ∀ (proto : gmap string GrpcClientFunc) (m : string),
  mass_wrapped proto names !! m
  = Nat.iter (occurrences m names) clientMethodTrace <$> proto !! m.
Proof.
  induction names as [|name rest IH]; intros proto m; simpl.
  - by destruct (proto !! m).
  - rewrite IH. destruct (String.eqb_spec name m) as [->|Hne].
    + destruct (proto !! m) as [f|] eqn:Hm.
      * rewrite lookup_insert_eq. simpl. by rewrite iter_clientMethodTrace.
      * by rewrite Hm.
    + destruct (proto !! name) as [f|]; [|done].
      by rewrite lookup_insert_ne.
Qed.

Lemma occurrences_not_in (m : string) (names : list string) :
  m ∉ names → occurrences m names = 0.
Proof.
  induction names as [|name rest IH]; [done|].
  intros Hnot. apply not_elem_of_cons in Hnot as [Hne Hrest]. simpl.
  destruct (String.eqb_spec name m); [congruence|]. by apply IH.
Qed.

Lemma occurrences_in (m : string) (names : list string) :
  m ∈ names → 0 < occurrences m names.
Proof.
  induction names as [|name rest IH]; [by intros ?%elem_of_nil|].
  intros Hin. simpl. destruct (String.eqb_spec name m); [lia|].
  apply elem_of_cons in Hin as [->|Hin]; [done|]. by apply IH.
Qed.

Lemma methods_of_entry_ignored (cfg : GrpcInstrumentationConfig) (c : Client)
    (name : string) (def : MethodDefinition) :
  _methodIsIgnored name (ignoreGrpcMethods cfg) = true →
  methods_of_entry cfg c name def = [].
Proof. unfold methods_of_entry. by intros ->. Qed.

Lemma methods_of_entry_elem (cfg : GrpcInstrumentationConfig) (c : Client)
    (name : string) (def : MethodDefinition) (m : string) :
  m ∈ methods_of_entry cfg c name def →
  _methodIsIgnored name (ignoreGrpcMethods cfg) = false
  ∧ (m = name ∨ originalName def = Some m).
Proof.
  unfold methods_of_entry.
  destruct (_methodIsIgnored name (ignoreGrpcMethods cfg)); simpl;
    [by intros ?%elem_of_nil|].
  intros Hin. split; [done|].
  apply elem_of_cons in Hin as [->|Hin]; [by left|]. right.
  destruct (originalName def) as [o|]; [|by apply elem_of_nil in Hin].
  destruct (_ && _); [|by apply elem_of_nil in Hin].
  apply list_elem_of_singleton in Hin. by subst.
Qed.

Lemma methods_to_wrap_elem (cfg : GrpcInstrumentationConfig) (c : Client)
    (methods : Methods) (m : string) :
  m ∈ methods_to_wrap cfg c methods →
  ∃ name def, (name, def) ∈ methods
              ∧ _methodIsIgnored name (ignoreGrpcMethods cfg) = false
              ∧ (m = name ∨ originalName def = Some m).
Proof.
  unfold methods_to_wrap. intros Hin. apply list_elem_of_In, in_flat_map in Hin.
  destruct Hin as ([name def] & Hentry & Hm).
  apply list_elem_of_In in Hentry, Hm. simpl in Hm.
  destruct (methods_of_entry_elem cfg c name def m Hm) as [Hign Hwhich].
  by exists name, def.
Qed.

Lemma invoke_patched_makeClientConstructor
    (impl : Methods → string → Value → Client) (methods : Methods)
    (serviceName : string) (options : Value) (w : World) :
  invoke_makeClientConstructor (makeClientConstructor_patched (MakeClientOrig impl))
    methods serviceName options w
  = ({| prototype :=
          mass_wrapped (prototype (impl methods serviceName options))
            (methods_to_wrap (config w) (impl methods serviceName options) methods) |},
     add_log
       (CallOriginalMakeClientConstructor methods serviceName
        :: mass_wrap_actions (prototype (impl methods serviceName options))
             (methods_to_wrap (config w) (impl methods serviceName options) methods))
       w).
Proof.
  simpl. unfold bind. rewrite emit_run. unfold ret.
  rewrite _getMethodsToWrap_run, _massWrap_run. simpl. by rewrite add_log_app.
Qed.


Lemma init_patch_run (e : GrpcModule) (version : string) (w : World) :
  init_patch e version w
  = ({| Server_prototype_register :=
          register_patched (unwrapped (Server_prototype_register e));
        makeGenericClientConstructor :=
          makeClientConstructor_patched (unwrapped (makeGenericClientConstructor e)) |},
     add_log [DiagDebug ("Applying patch for grpc@" +:+ version);
              DiagDebug "patched gRPC server"; DiagDebug "patching client"] w).
Proof.
  destruct e as [r g]. unfold init_patch, bind, diag_debug, _wrap, bind, _patchServer,
    _patchClient, bind, diag_debug, ret. rewrite !emit_run.
  destruct r, g; simpl; by rewrite ?add_log_app.
Qed.

Lemma onPatch_run (e : GrpcInternalClientTypes) (version : string) (w : World) :
  onPatch e version w
  = ({| makeClientConstructor :=
          makeClientConstructor_patched (unwrapped (makeClientConstructor e)) |},
     add_log [DiagDebug ("Applying internal patch for grpc@" +:+ version);
              DiagDebug "patching client"] w).
Proof.
  destruct e as [g]. unfold onPatch, bind, diag_debug, _wrap, bind,
    _patchClient, bind, diag_debug, ret. rewrite !emit_run.
  destruct g; simpl; by rewrite ?add_log_app.
Qed.

Lemma invoke_patched_register
    (impl : gmap string HandlerSet → RegisterArgs → Value * gmap string HandlerSet)
    (handlers : gmap string HandlerSet) (args : RegisterArgs) (w : World) :
  invoke_register (register_patched (RegisterOrig impl)) handlers args w
  = ((fst (impl handlers args),
      match snd (impl handlers args) !! r_name args with
      | Some handlerSet =>
          <[r_name args :=
              set_func (func_patched (r_name args) (r_type args)
                          (fst (impl handlers args)) (func handlerSet)) handlerSet]>
            (snd (impl handlers args))
      | None => snd (impl handlers args)
      end),
     add_log [CallOriginalRegister args] w).
Proof.
  simpl. unfold bind. rewrite emit_run. unfold ret. simpl.
  by destruct (snd (impl handlers args) !! r_name args).
Qed.

Lemma func_counts (name type : string) (originalResult : Value) (h : UserHandler)
    (call : ServerCallWithMeta) (cb : CallbackFn) (w : World) :
  is_unary_or_client_stream type = true ∨ is_server_stream_or_bidi type = true →
  ∃ d, log (snd (invoke_func (func_patched name type originalResult (HandlerOrig h))
                   call cb w)) = log w ++ d
       ∧ count is_CallOriginalFunc d = 1
       ∧ count is_StartSpan d = if ignored_in w name then 0 else 1.
Proof.
  intros Hshape. destruct (ignored_in w name) eqn:Hign.
  - rewrite (func_ignored _ _ _ _ _ _ _ Hign).
    assert (Hrun : ∀ cb', ∃ d,
               log (snd (invoke_func (HandlerOrig h) call cb' w)) = log w ++ d
               ∧ count is_CallOriginalFunc d = 1 ∧ count is_StartSpan d = 0).
    { intros cb'. simpl invoke_func. rewrite invoke_user_handler_run.
      eexists. split; [reflexivity|]. simpl.
      by rewrite (completion_no_CallOriginalFunc _ (steps_actions_completion _ _ _ _)),
                 (completion_no_StartSpan _ (steps_actions_completion _ _ _ _)). }
    destruct Hshape as [Hu|Hs].
    + rewrite Hu. apply Hrun.
    + rewrite (stream_not_unary _ Hs), Hs. apply Hrun.
  - destruct (preamble_one_StartSpan (_metadataCapture w) name call (nextSpan w))
      as (Hstart & Hfunc & _).
    destruct Hshape as [Hu|Hs].
    + rewrite (func_traced_unary _ _ originalResult _ _ cb _ Hign Hu).
      eexists. split; [reflexivity|]. rewrite !count_app, Hstart, Hfunc. simpl.
      by rewrite (completion_no_CallOriginalFunc _ (steps_actions_completion _ _ _ _)),
                 (completion_no_StartSpan _ (steps_actions_completion _ _ _ _)).
    + rewrite (func_traced_stream _ _ originalResult _ _ cb _ Hign Hs).
      eexists. split; [reflexivity|]. rewrite !count_app, Hstart, Hfunc. simpl.
      by rewrite (completion_no_CallOriginalFunc _ (steps_actions_completion _ _ _ _)),
                 (completion_no_StartSpan _ (steps_actions_completion _ _ _ _)).
Qed.


Lemma mass_wrap_actions_diag (names : list string) :
  ∀ proto : gmap string GrpcClientFunc,
  count is_CallOriginalMakeClientConstructor (mass_wrap_actions proto names) = 0.
Proof.
  induction names as [|name rest IH]; intros proto; simpl; [done|].
  destruct (proto !! name); simpl; apply IH.
Qed.

Lemma invoke_patched_makeClientConstructor_once
    (impl : Methods → string → Value → Client) (methods : Methods)
    (serviceName : string) (options : Value) (w : World) :
  ∃ d, log (snd (invoke_makeClientConstructor
                   (makeClientConstructor_patched (MakeClientOrig impl))
                   methods serviceName options w)) = log w ++ d
       ∧ count is_CallOriginalMakeClientConstructor d = 1.
Proof.
  rewrite invoke_patched_makeClientConstructor. eexists. split; [reflexivity|].
  simpl. by rewrite mass_wrap_actions_diag.
Qed.

(** ** C1: loading the module twice *)

(** C1. After the patch has been applied twice in succession to the same
    module exports (two load events), each target ([Server.prototype.register],
    [makeGenericClientConstructor], and [makeClientConstructor] of the
    internal client file) carries exactly one wrapper, as after one load,
    since the patch unwraps a wrapped target before it wraps.  Hence every
    invocation of a target calls the original implementation exactly once; a
    handler registered through the wrapped [register] gets one wrapper, and
    each call of it calls the original handler once and starts exactly one
    span (none when the method is ignored); a client method gets one wrapper,
    and each call of it calls the original method once and starts exactly
    one span. *)
Theorem patch_twice_leaves_one_layer
    (URI_REGEX_exec : string → option (string * string))
    (parseInt : string → AttributeValue)
    (impl_register : gmap string HandlerSet → RegisterArgs → Value * gmap string HandlerSet)
    (impl_generic impl_internal : Methods → string → Value → Client)
    (v1 v2 : string) (w : World) :
  let exports := {| Server_prototype_register := RegisterOrig impl_register;
                    makeGenericClientConstructor := MakeClientOrig impl_generic |} in
  let internal := {| makeClientConstructor := MakeClientOrig impl_internal |} in
  let loaded := init_patch exports v1 w in
  let reloaded := init_patch (fst loaded) v2 (snd loaded) in
  let iloaded := onPatch internal v1 w in
  let ireloaded := onPatch (fst iloaded) v2 (snd iloaded) in
  let register := Server_prototype_register (fst reloaded) in
  (* one wrapper on each target, as after a single load *)
  (fst reloaded = fst loaded
   ∧ register = register_patched (RegisterOrig impl_register)
   ∧ makeGenericClientConstructor (fst reloaded)
     = makeClientConstructor_patched (MakeClientOrig impl_generic)
   ∧ makeClientConstructor (fst ireloaded)
     = makeClientConstructor_patched (MakeClientOrig impl_internal))
  (* each invocation of a target calls the original implementation once *)
  ∧ (∀ handlers args w0, ∃ d,
       log (snd (invoke_register register handlers args w0)) = log w0 ++ d
       ∧ count is_CallOriginalRegister d = 1)
  ∧ (∀ methods serviceName options w0, ∃ d,
       log (snd (invoke_makeClientConstructor (makeGenericClientConstructor (fst reloaded))
                   methods serviceName options w0)) = log w0 ++ d
       ∧ count is_CallOriginalMakeClientConstructor d = 1)
  ∧ (∀ methods serviceName options w0, ∃ d,
       log (snd (invoke_makeClientConstructor (makeClientConstructor (fst ireloaded))
                   methods serviceName options w0)) = log w0 ++ d
       ∧ count is_CallOriginalMakeClientConstructor d = 1)
  (* a handler registered through the target gets one wrapper ... *)
  ∧ (∀ handlers args w0 handlerSet,
       snd (impl_register handlers args) !! r_name args = Some handlerSet →
       snd (fst (invoke_register register handlers args w0)) !! r_name args
       = Some (set_func
                 (func_patched (r_name args) (r_type args)
                    (fst (impl_register handlers args)) (func handlerSet))
                 handlerSet))
  (* ... so that each call of it calls the original handler once and starts
     one span (none if the method is ignored) *)
  ∧ (∀ name type originalResult h call cb w0,
       is_unary_or_client_stream type = true ∨ is_server_stream_or_bidi type = true →
       ∃ d, log (snd (invoke_func (func_patched name type originalResult (HandlerOrig h))
                        call cb w0)) = log w0 ++ d
            ∧ count is_CallOriginalFunc d = 1
            ∧ count is_StartSpan d = if ignored_in w0 name then 0 else 1)
  (* a client method listed once gets one wrapper ... *)
  ∧ (∀ methods serviceName options w0 m f,
       occurrences m (methods_to_wrap (config w0)
                        (impl_generic methods serviceName options) methods) = 1 →
       prototype (impl_generic methods serviceName options) !! m = Some f →
       prototype (fst (invoke_makeClientConstructor
                         (makeGenericClientConstructor (fst reloaded))
                         methods serviceName options w0)) !! m
       = Some (clientMethodTrace f))
  (* ... so that each call of it calls the original method once and starts
     one span *)
  ∧ (∀ path result this args w0, ∃ d,
       log (snd (invoke_client_method URI_REGEX_exec parseInt
                   (clientMethodTrace (ClientMethodOrig path result)) this args w0))
       = log w0 ++ d
       ∧ count is_CallOriginalClientMethod d = 1
       ∧ count is_StartSpan d = 1).
Proof.
  intros exports internal loaded reloaded iloaded ireloaded register.
  assert (Hreloaded : fst reloaded
                      = {| Server_prototype_register := register_patched (RegisterOrig impl_register);
                           makeGenericClientConstructor :=
                             makeClientConstructor_patched (MakeClientOrig impl_generic) |}).
  { subst reloaded loaded exports. by rewrite !init_patch_run. }
  assert (Hireloaded : fst ireloaded
                       = {| makeClientConstructor :=
                              makeClientConstructor_patched (MakeClientOrig impl_internal) |}).
  { subst ireloaded iloaded internal. by rewrite !onPatch_run. }
  subst register. rewrite Hreloaded, Hireloaded. cbn [Server_prototype_register
    makeGenericClientConstructor makeClientConstructor].
  split.
  { subst loaded exports. by rewrite init_patch_run. }
  split.
  { intros handlers args w0. rewrite invoke_patched_register. by eexists. }
  split; [intros; apply invoke_patched_makeClientConstructor_once|].
  split; [intros; apply invoke_patched_makeClientConstructor_once|].
  split.
  { intros handlers args w0 handlerSet Hstored. rewrite invoke_patched_register.
    cbn [fst snd]. rewrite Hstored. apply lookup_insert_eq. }
  split; [intros; by apply func_counts|].
  split.
  { intros methods serviceName options w0 m f Hocc Hm.
    rewrite invoke_patched_makeClientConstructor. cbn [fst prototype].
    by rewrite mass_wrapped_lookup, Hocc, Hm. }
  intros path result this args w0. rewrite invoke_client_method_run.
  eexists. split; [reflexivity|].
  destruct (client_actions_counts URI_REGEX_exec parseInt (_metadataCapture w0)
              (clientMethodTrace (ClientMethodOrig path result)) this args
              (active w0) (nextSpan w0)) as [Hs Hc].
  by rewrite Hs, Hc.
Qed.

Lemma patch_twice_leaves_one_layer_witness :
  (∃ d, log (snd (invoke_func
                    (func_patched "/pkg.Service/Get" "unary" (VBool true)
                       (HandlerOrig Sample.failing_handler))
                    Sample.call SendUnaryData Sample.world)) = log Sample.world ++ d
        ∧ count is_CallOriginalFunc d = 1
        ∧ count is_StartSpan d = 1)
  ∧ prototype (fst (invoke_makeClientConstructor
                      (makeGenericClientConstructor
                         (fst (init_patch
                                 (fst (init_patch Sample.grpc "1.24.11" Sample.world))
                                 "1.24.11"
                                 (snd (init_patch Sample.grpc "1.24.11" Sample.world)))))
                      Sample.methods "Health" VUndefined Sample.world)) !! "check"
    = Some (clientMethodTrace Sample.health_check).
Proof.
  destruct (patch_twice_leaves_one_layer Sample.no_uri Sample.no_int
              Sample.library_register Sample.library_client Sample.library_client
              "1.24.11" "1.24.11" Sample.world)
    as (_ & _ & _ & _ & _ & Hfunc & Hmethod & _).
  split.
  - exact (Hfunc "/pkg.Service/Get" "unary" (VBool true) Sample.failing_handler
             Sample.call SendUnaryData Sample.world (or_introl eq_refl)).
  - exact (Hmethod Sample.methods "Health" VUndefined Sample.world "check"
             Sample.health_check eq_refl eq_refl).
Defined.

(** ** C2: unloading the module *)

Lemma init_unpatch_run (e : GrpcModule) (version : string) (w : World) :
  init_unpatch (Some e) version w
  = (Some {| Server_prototype_register := unwrapped (Server_prototype_register e);
             makeGenericClientConstructor := makeGenericClientConstructor e |},
     add_log [DiagDebug ("Removing patch for grpc@" +:+ version)] w).
Proof. destruct e as [r g]. by destruct r. Qed.

Lemma onUnPatch_run (e : GrpcInternalClientTypes) (version : string) (w : World) :
  onUnPatch (Some e) version w
  = (Some {| makeClientConstructor := unwrapped (makeClientConstructor e) |},
     add_log [DiagDebug ("Removing internal patch for grpc@" +:+ version)] w).
Proof. destruct e as [g]. by destruct g. Qed.

(** C2. The claim is that after the unload callbacks every target the patch
    wrapped is unwrapped.  On the [grpc] module the unload callback unwraps
    [Server.prototype.register] only: [makeGenericClientConstructor], which
    the patch wrapped, is still wrapped afterwards.  The unload callback of
    the internal client file does restore its [makeClientConstructor]. *)
Theorem unpatch_leaves_makeGenericClientConstructor_wrapped :
  fst (init_unpatch (Some (fst (init_patch Sample.grpc "1.24.11" Sample.world))) "1.24.11"
         (snd (init_patch Sample.grpc "1.24.11" Sample.world)))
  = Some {| Server_prototype_register := RegisterOrig Sample.library_register;
            makeGenericClientConstructor :=
              makeClientConstructor_patched (MakeClientOrig Sample.library_client) |}
  ∧ isWrapped (makeClientConstructor_patched (MakeClientOrig Sample.library_client)) = true
  ∧ fst (onUnPatch (Some (fst (onPatch Sample.grpc_client_js "1.24.11" Sample.world)))
           "1.24.11" (snd (onPatch Sample.grpc_client_js "1.24.11" Sample.world)))
    = Some Sample.grpc_client_js.
Proof. by rewrite init_patch_run, init_unpatch_run, onPatch_run, onUnPatch_run. Qed.

(** ** C5 and C10: ignored methods, and when the client consults the list *)

(** C5, as stated, fails on the client side: the ignore list is not checked
    at each invocation.  A client method that was wrapped when its client
    constructor was generated, and whose name a later configuration ignores,
    still starts a span when it is invoked. *)
Lemma ignored_client_method_still_traced :
  _methodIsIgnored "check" (ignoreGrpcMethods (config Sample.reconfigured)) = true
  ∧ prototype Sample.generated !! "check" = Some (clientMethodTrace Sample.health_check)
  ∧ count is_StartSpan
      (log (snd (invoke_client_method Sample.no_uri Sample.no_int
                   (clientMethodTrace Sample.health_check) Sample.instance []
                   Sample.reconfigured))) = 1.
Proof. split; [reflexivity|]. split; [vm_compute; reflexivity|reflexivity]. Qed.

Lemma not_listed_not_wrapped (cfg : GrpcInstrumentationConfig) (c : Client)
    (methods : Methods) (m : string) :
  (∀ key def, (key, def) ∈ methods → key = m ∨ originalName def = Some m →
              _methodIsIgnored key (ignoreGrpcMethods cfg) = true) →
  m ∉ methods_to_wrap cfg c methods.
Proof.
  intros Hign Hin.
  destruct (methods_to_wrap_elem cfg c methods m Hin) as (key & def & Hentry & Hnot & Hm).
  rewrite (Hign key def Hentry) in Hnot; [done|].
  destruct Hm as [->|Hm]; [by left|by right].
Qed.

Section ClientClaims.

Variable URI_REGEX_exec : string → option (string * string).
Variable parseInt : string → AttributeValue.

(** C5, amended.  Server side: when the method matches the ignore list at
    the time of the call, the wrapped handler of a unary or client-streaming
    call behaves exactly as the original handler called with the same call
    and callback, and that of a server-streaming or bidi call exactly as the
    original handler called with the call alone: same return value, and
    nothing added to the log (no span, no tracing action).  Client side: the
    list is consulted once, when the client constructor is generated, with
    the keys of the method table; a method that only entries with an ignored
    key name (as key or as original name) is left unwrapped on the
    prototype, so invoking it is invoking the library's method with the same
    arguments and return value, and no span. *)
Theorem ignored_methods_pass_through
    (name type : string) (originalResult : Value) (originalFunc : HandlerFn)
    (call : ServerCallWithMeta) (cb : CallbackFn) (w : World)
    (impl : Methods → string → Value → Client) (methods : Methods)
    (serviceName : string) (options : Value) (w0 : World) (m : string) :
  (ignored_in w name = true →
   (is_unary_or_client_stream type = true →
    invoke_func (func_patched name type originalResult originalFunc) call cb w
    = invoke_func originalFunc call cb w)
   ∧ (is_server_stream_or_bidi type = true →
      invoke_func (func_patched name type originalResult originalFunc) call cb w
      = invoke_func originalFunc call UndefinedCallback w))
  ∧ ((∀ key def, (key, def) ∈ methods → key = m ∨ originalName def = Some m →
                 _methodIsIgnored key (ignoreGrpcMethods (config w0)) = true) →
     prototype (fst (invoke_makeClientConstructor
                       (makeClientConstructor_patched (MakeClientOrig impl))
                       methods serviceName options w0)) !! m
     = prototype (impl methods serviceName options) !! m
     ∧ ∀ path result this args w1,
         prototype (impl methods serviceName options) !! m
         = Some (ClientMethodOrig path result) →
         ∃ f, prototype (fst (invoke_makeClientConstructor
                                (makeClientConstructor_patched (MakeClientOrig impl))
                                methods serviceName options w0)) !! m = Some f
              ∧ invoke_client_method URI_REGEX_exec parseInt f this args w1
                = (result, add_log [CallOriginalClientMethod path args (active w1)] w1)).
Proof.
  split.
  - intros Hign. rewrite (func_ignored _ _ _ _ _ _ _ Hign). split.
    + by intros ->.
    + intros Hs. by rewrite (stream_not_unary _ Hs), Hs.
  - intros Hign.
    pose proof (not_listed_not_wrapped (config w0) (impl methods serviceName options)
                  methods m Hign) as Hnot.
    assert (Hsame : prototype (fst (invoke_makeClientConstructor
                       (makeClientConstructor_patched (MakeClientOrig impl))
                       methods serviceName options w0)) !! m
                    = prototype (impl methods serviceName options) !! m).
    { rewrite invoke_patched_makeClientConstructor. cbn [fst prototype].
      rewrite mass_wrapped_lookup, (occurrences_not_in _ _ Hnot).
      by destruct (prototype (impl methods serviceName options) !! m). }
    split; [exact Hsame|].
    intros path result this args w1 Hm. exists (ClientMethodOrig path result).
    split; [by rewrite Hsame|]. done.
Qed.

(** C10. The set of client methods that are wrapped is fixed when the
    patched [makeClientConstructor] runs: the method list comes from the
    entries whose key the configuration of that moment does not ignore, and
    each method of the prototype gets one wrapper per occurrence in that
    list.  [clientMethodTrace] consults no ignore list: in any world, also
    after a later [setConfig] with any configuration, invoking a method
    starts exactly as many spans as it has wrappers.  So which methods of a
    generated client create spans does not change with a later [setConfig]. *)
Theorem wrapped_client_methods_fixed_at_generation
    (impl : Methods → string → Value → Client) (methods : Methods)
    (serviceName : string) (options : Value) (w0 : World) :
  let library := impl methods serviceName options in
  let names := methods_to_wrap (config w0) library methods in
  let generated :=
    fst (invoke_makeClientConstructor
           (makeClientConstructor_patched (MakeClientOrig impl))
           methods serviceName options w0) in
  (∀ m, m ∈ names →
        ∃ key def, (key, def) ∈ methods
                   ∧ _methodIsIgnored key (ignoreGrpcMethods (config w0)) = false
                   ∧ (m = key ∨ originalName def = Some m))
  ∧ (∀ m, prototype generated !! m
          = Nat.iter (occurrences m names) clientMethodTrace <$> prototype library !! m)
  ∧ (∀ f this args w cfg, ∃ d,
       log (snd (invoke_client_method URI_REGEX_exec parseInt f this args
                   (snd (setConfig cfg w)))) = log w ++ d
       ∧ count is_StartSpan d = client_layers f
       ∧ count is_CallOriginalClientMethod d = 1)
  ∧ (∀ m f0 this args w cfg,
       prototype library !! m = Some f0 →
       ∃ f d, prototype generated !! m = Some f
              ∧ log (snd (invoke_client_method URI_REGEX_exec parseInt f this args
                            (snd (setConfig cfg w)))) = log w ++ d
              ∧ count is_StartSpan d = occurrences m names + client_layers f0).
Proof.
  intros library names generated.
  assert (Hproto : ∀ m, prototype generated !! m
                        = Nat.iter (occurrences m names) clientMethodTrace
                            <$> prototype library !! m).
  { intros m. subst generated. rewrite invoke_patched_makeClientConstructor.
    cbn [fst prototype]. apply mass_wrapped_lookup. }
  assert (Hcall : ∀ f this args w cfg, ∃ d,
       log (snd (invoke_client_method URI_REGEX_exec parseInt f this args
                   (snd (setConfig cfg w)))) = log w ++ d
       ∧ count is_StartSpan d = client_layers f
       ∧ count is_CallOriginalClientMethod d = 1).
  { intros f this args w cfg. rewrite invoke_client_method_run.
    eexists. split; [reflexivity|]. apply client_actions_counts. }
  split; [intros m; apply methods_to_wrap_elem|].
  split; [exact Hproto|]. split; [exact Hcall|].
  intros m f0 this args w cfg Hm.
  exists (Nat.iter (occurrences m names) clientMethodTrace f0).
  destruct (Hcall (Nat.iter (occurrences m names) clientMethodTrace f0) this args w cfg)
    as (d & Hlog & Hspans & _).
  exists d. split; [by rewrite Hproto, Hm|]. split; [exact Hlog|].
  by rewrite Hspans, client_layers_iter.
Qed.
End ClientClaims.

Lemma ignored_methods_pass_through_witness :
  invoke_func
    (func_patched "/grpc.health.v1.Health/Check" "unary" (VBool true)
       (HandlerOrig Sample.failing_handler))
    Sample.call SendUnaryData Sample.ignoring_world
  = invoke_func (HandlerOrig Sample.failing_handler) Sample.call SendUnaryData
      Sample.ignoring_world
  ∧ prototype (fst (invoke_makeClientConstructor
                      (makeClientConstructor_patched (MakeClientOrig Sample.library_client))
                      Sample.methods "Health" VUndefined Sample.reconfigured)) !! "check"
    = prototype (Sample.library_client Sample.methods "Health" VUndefined) !! "check".
Proof.
  destruct (ignored_methods_pass_through Sample.no_uri Sample.no_int
              "/grpc.health.v1.Health/Check" "unary" (VBool true)
              (HandlerOrig Sample.failing_handler) Sample.call SendUnaryData
              Sample.ignoring_world Sample.library_client Sample.methods "Health"
              VUndefined Sample.reconfigured "check") as [Hserver Hclient].
  split.
  - exact (proj1 (Hserver eq_refl) eq_refl).
  - apply Hclient. intros key def Hentry _.
    apply list_elem_of_singleton in Hentry. by inversion Hentry.
Defined.

Lemma wrapped_client_methods_fixed_at_generation_witness :
  ∃ f d, prototype Sample.generated !! "check" = Some f
         ∧ log (snd (invoke_client_method Sample.no_uri Sample.no_int f Sample.instance []
                       (snd (setConfig (Some (config Sample.reconfigured)) Sample.world))))
           = log Sample.world ++ d
         ∧ count is_StartSpan d = 1.
Proof.
  destruct (wrapped_client_methods_fixed_at_generation Sample.no_uri Sample.no_int
              Sample.library_client Sample.methods "Health" VUndefined Sample.world)
    as (_ & _ & _ & Hmethod).
  destruct (Hmethod "check" Sample.health_check Sample.instance []
              Sample.world (Some (config Sample.reconfigured)) eq_refl)
    as (f & d & Hf & Hlog & Hspans).
  exists f, d. split; [exact Hf|]. split; [exact Hlog|]. exact Hspans.
Defined.

(** * Further properties of [index.ts] *)

(** ** The wrapper of [handlerSet.func], around any function *)

Lemma advanced_world_0 (d : list Action) (w : World) :
  advanced_world 0 d w = add_log d w.
Proof. unfold advanced_world, add_log. by rewrite Nat.add_0_r. Qed.

Lemma func_traced_general (name type : string) (originalResult : Value)
    (originalFunc : HandlerFn) (call : ServerCallWithMeta) (cb : CallbackFn)
    (w : World) :
  ignored_in w name = false →
  let span := nextSpan w in
  let call1 := set_sendMetadata (SendMetadataPatched span (sendMetadata call)) call in
  let call2 := set_listeners (listeners call ++ [{| l_span := span; spanEnded := false |}]) call1 in
  let w1 := set_active (SpanContext span (Extracted (metadata call) (active w)))
              (traced_world (server_preamble (_metadataCapture w) name call span) w) in
  let r := if is_unary_or_client_stream type
           then invoke_func originalFunc call1 (patchedCallback span cb) w1
           else if is_server_stream_or_bidi type
           then invoke_func originalFunc call2 UndefinedCallback w1
           else ((VUndefined, call1), w1) in
  invoke_func (func_patched name type originalResult originalFunc) call cb w
  = ((VUndefined, snd (fst r)), set_active (active w) (snd r)).
Proof.
  intros Hign span call1 call2 w1 r. unfold ignored_in in Hign.
  cbn [invoke_func].
  unfold bind at 1. unfold shouldNotTraceServerCall, bind, getConfig, ret.
  rewrite Hign.
  unfold diag_debug, context_active, propagation_extract, bind, ret, context_with,
    tracer_startSpan, span_setAttributes, get_metadataCapture, invoke_metadataCapture,
    bind, ret, _wrap, bind, ret, clientStreamAndUnaryHandler, serverStreamAndBidiHandler.
  cbn [emit fst snd active set_active _metadataCapture config nextSpan log].
  rewrite capture_keys_run.
  cbn [add_log fst snd active set_active _metadataCapture config nextSpan log].
  assert (Hw1 : w1 = {| config := config w; _metadataCapture := _metadataCapture w;
                        active := SpanContext span (Extracted (metadata call) (active w));
                        nextSpan := S (nextSpan w);
                        log := log w ++ server_preamble (_metadataCapture w) name call span |}).
  { done. }
  set (wx := set_active (trace_setSpan _ _) (add_log _ _)).
  assert (Hwx : wx = w1).
  { subst wx w1. unfold set_active, add_log, traced_world, server_preamble, trace_setSpan.
    cbn [config _metadataCapture active nextSpan log]. f_equal.
    rewrite <- !app_assoc. reflexivity. }
  rewrite Hwx. clear Hwx wx Hw1. subst r.
  destruct (is_unary_or_client_stream type); [|destruct (is_server_stream_or_bidi type)].
  - subst call1 span.
    by destruct (invoke_func originalFunc _ _ w1) as [[v c] w'].
  - change {| metadata := _; sendMetadata := _; listeners := _ |} with call2.
    subst call2 call1 span.
    by destruct (invoke_func originalFunc _ _ w1) as [[v c] w'].
  - done.
Qed.

Lemma set_active_advanced (ctx : Context) (n : nat) (d : list Action) (w : World) :
  set_active ctx (advanced_world n d w) = advanced_world n d (set_active ctx w).
Proof. done. Qed.

(** A call of a handler, whatever wrappers it has: the configuration, the
    captures and the active context are as before; the span counter has
    advanced by the spans started, one for each wrapper that traces; and the
    user's function was called once if the call reached it, never twice. *)
Lemma invoke_func_frame (f : HandlerFn) :
  ∀ (call : ServerCallWithMeta) (cb : CallbackFn) (w : World),
  ∃ d, snd (invoke_func f call cb w)
       = advanced_world (traced_layers (config w) f) d w
       ∧ count is_StartSpan d = traced_layers (config w) f
       ∧ count is_CallOriginalFunc d = if reaches_original f then 1 else 0.
Proof.
  induction f as [h|name type originalResult originalFunc IH]; intros call cb w.
  - cbn [invoke_func]. rewrite invoke_user_handler_run. eexists.
    split; [symmetry; apply advanced_world_0|]. cbn [traced_layers reaches_original].
    simpl count.
    by rewrite (completion_no_CallOriginalFunc _ (steps_actions_completion _ _ _ _)),
               (completion_no_StartSpan _ (steps_actions_completion _ _ _ _)).
  - cbn [traced_layers reaches_original]. unfold is_known_shape.
    destruct (ignored_in w name) eqn:Hign.
    + rewrite (func_ignored _ _ _ _ _ _ _ Hign). unfold ignored_in in Hign. rewrite Hign.
      destruct (is_unary_or_client_stream type); [|destruct (is_server_stream_or_bidi type)].
      * apply IH.
      * apply IH.
      * exists []. cbn [snd]. split; [by rewrite advanced_world_0, add_log_nil|done].
    + rewrite (func_traced_general _ _ _ _ _ _ _ Hign). unfold ignored_in in Hign.
      rewrite Hign. cbn [snd].
      set (span := nextSpan w).
      set (pre := server_preamble (_metadataCapture w) name call span).
      set (w1 := set_active _ (traced_world pre w)).
      destruct (preamble_one_StartSpan (_metadataCapture w) name call span)
        as (Hstart & Hfunc & _). fold pre in Hstart, Hfunc.
      assert (Hcompose : ∀ n d, set_active (active w) (advanced_world n d w1)
                                = advanced_world (1 + n) (pre ++ d) w).
      { intros n d. subst w1. unfold set_active, advanced_world, traced_world.
        cbn [config _metadataCapture active nextSpan log]. f_equal; [lia|].
        by rewrite app_assoc. }
      destruct (is_unary_or_client_stream type); [|destruct (is_server_stream_or_bidi type)].
      * destruct (IH (set_sendMetadata (SendMetadataPatched span (sendMetadata call)) call)
                    (patchedCallback span cb) w1) as (d & Hd & Hs & Hc).
        exists (pre ++ d). cbn [orb andb]. rewrite Hd, Hcompose, !count_app, Hstart, Hfunc, Hs, Hc.
        done.
      * destruct (IH (set_listeners
                        (listeners call ++ [{| l_span := span; spanEnded := false |}])
                        (set_sendMetadata (SendMetadataPatched span (sendMetadata call)) call))
                    UndefinedCallback w1) as (d & Hd & Hs & Hc).
        exists (pre ++ d). cbn [orb andb]. rewrite Hd, Hcompose, !count_app, Hstart, Hfunc, Hs, Hc.
        done.
      * exists pre. cbn [orb andb snd]. split; [|by rewrite Hstart, Hfunc].
        subst w1. unfold set_active, advanced_world, traced_world.
        cbn [config _metadataCapture active nextSpan log]. f_equal. lia.
Qed.

Lemma traced_layers_le (cfg : GrpcInstrumentationConfig) (f : HandlerFn) :
  (traced_layers cfg f ≤ handler_layers f)%nat.
Proof.
  induction f as [h|name type originalResult originalFunc IH]; simpl; [done|].
  destruct (_methodIsIgnored _ _), (is_known_shape type); lia.
Qed.

(** X1. Whatever wrappers a handler has, a call of it leaves the
    configuration, the metadata captures and the active context as they
    were ([context.with] is scoped), and advances the span counter by exactly
    the number of spans it started. *)
Theorem handler_call_restores_context (f : HandlerFn) (call : ServerCallWithMeta)
    (cb : CallbackFn) (w : World) :
  ∃ d, config (snd (invoke_func f call cb w)) = config w
       ∧ _metadataCapture (snd (invoke_func f call cb w)) = _metadataCapture w
       ∧ active (snd (invoke_func f call cb w)) = active w
       ∧ log (snd (invoke_func f call cb w)) = log w ++ d
       ∧ nextSpan (snd (invoke_func f call cb w)) = nextSpan w + count is_StartSpan d.
Proof.
  destruct (invoke_func_frame f call cb w) as (d & -> & Hs & _).
  exists d. by rewrite Hs.
Qed.

(** X2. A call of a handler starts one span for each of its wrappers whose
    method is not ignored and that the call reaches, so never more spans
    than it has wrappers; and it calls the user's function exactly once if
    every wrapper was registered with one of the four call shapes, and not
    at all otherwise: never twice. *)
Theorem handler_call_spans_and_original (f : HandlerFn) (call : ServerCallWithMeta)
    (cb : CallbackFn) (w : World) :
  ∃ d, log (snd (invoke_func f call cb w)) = log w ++ d
       ∧ count is_StartSpan d = traced_layers (config w) f
       ∧ (count is_StartSpan d ≤ handler_layers f)%nat
       ∧ count is_CallOriginalFunc d = (if reaches_original f then 1 else 0)
       ∧ (count is_CallOriginalFunc d ≤ 1)%nat.
Proof.
  destruct (invoke_func_frame f call cb w) as (d & -> & Hs & Hc).
  exists d. split; [done|]. split; [done|].
  split; [rewrite Hs; apply traced_layers_le|]. split; [done|].
  rewrite Hc. destruct (reaches_original f); lia.
Qed.

(** ** The wrapper of [register], around any function *)

Lemma set_func_set_func (f g : HandlerFn) (hs : HandlerSet) :
  set_func f (set_func g hs) = set_func f hs.
Proof. done. Qed.

(** The table the wrappers of [register] leave: the library's, with the
    handler under the registered name wrapped once per wrapper. *)
Lemma invoke_register_run (f : RegisterFn) (handlers : gmap string HandlerSet)
    (args : RegisterArgs) (w : World) :
  invoke_register f handlers args w
  = ((fst (register_impl f handlers args),
      match snd (register_impl f handlers args) !! r_name args with
      | Some handlerSet =>
          if register_layers f is 0 then snd (register_impl f handlers args)
          else
            <[r_name args :=
                set_func
                  (Nat.iter (register_layers f)
                     (func_patched (r_name args) (r_type args)
                        (fst (register_impl f handlers args)))
                     (func handlerSet)) handlerSet]>
              (snd (register_impl f handlers args))
      | None => snd (register_impl f handlers args)
      end),
     add_log [CallOriginalRegister args] w).
Proof.
  induction f as [impl|originalRegister IH].
  - cbn [invoke_register register_impl register_layers]. unfold bind. rewrite emit_run.
    unfold ret. destruct (impl handlers args) as [v t]. cbn [fst snd].
    by destruct (t !! r_name args).
  - cbn [invoke_register register_impl register_layers]. unfold bind. rewrite IH.
    cbn [fst snd].
    set (r := register_impl originalRegister handlers args).
    destruct (snd r !! r_name args) as [hs|] eqn:Hhs.
    + destruct (register_layers originalRegister) as [|k] eqn:Hk.
      * rewrite Hhs. unfold _wrap, bind, ret. done.
      * rewrite lookup_insert_eq. unfold _wrap, bind, ret. cbn [func set_func].
        by rewrite insert_insert_eq.
    + rewrite Hhs. done.
Qed.

Lemma handler_layers_iter (k : nat) (w : HandlerFn → HandlerFn) (f : HandlerFn) :
  (∀ g, handler_layers (w g) = S (handler_layers g)) →
  handler_layers (Nat.iter k w f) = k + handler_layers f.
Proof. intros Hw. induction k as [|k IH]; simpl; [done|]. by rewrite Hw, IH. Qed.

(** X3. Whatever wrappers [register] has, a call of it calls the library's
    [register] exactly once with the arguments given and returns what it
    returned; the handler table is the library's, with the same names; every
    other name is untouched; and the handler set under the registered name
    keeps its type, its function being wrapped once per wrapper of
    [register].  A name the library did not store leaves the table as the
    library left it. *)
Theorem register_wrappers_keep_table (f : RegisterFn)
    (handlers : gmap string HandlerSet) (args : RegisterArgs) (w : World) :
  let r := invoke_register f handlers args w in
  let lib := register_impl f handlers args in
  fst (fst r) = fst lib
  ∧ snd r = add_log [CallOriginalRegister args] w
  ∧ dom (snd (fst r)) = dom (snd lib)
  ∧ (∀ n, n ≠ r_name args → snd (fst r) !! n = snd lib !! n)
  ∧ (∀ hs, snd lib !! r_name args = Some hs →
       ∃ hs', snd (fst r) !! r_name args = Some hs'
              ∧ hs_type hs' = hs_type hs
              ∧ func hs' = Nat.iter (register_layers f)
                             (func_patched (r_name args) (r_type args) (fst lib))
                             (func hs)
              ∧ handler_layers (func hs') = register_layers f + handler_layers (func hs))
  ∧ (snd lib !! r_name args = None → snd (fst r) = snd lib).
Proof.
  intros r lib. subst r. rewrite invoke_register_run. fold lib. cbn [fst snd].
  split; [done|]. split; [done|].
  destruct (snd lib !! r_name args) as [hs|] eqn:Hhs.
  - destruct (register_layers f) as [|k] eqn:Hk.
    + split; [done|]. split; [done|]. split; [|done].
      intros hs0 [= <-]. exists hs. by rewrite Hhs.
    + split; [apply dom_insert_lookup_L; by rewrite Hhs|].
      split; [intros n Hn; by rewrite lookup_insert_ne|].
      split; [|done].
      intros hs0 [= <-]. eexists. split; [apply lookup_insert_eq|].
      split; [done|]. split; [done|].
      cbn [func set_func]. by rewrite (handler_layers_iter (S k)).
  - split; [done|]. split; [done|]. split; [done|]. done.
Qed.

(** X4. When the library rejects a registration because the name is taken
    (it leaves its table as it was), the wrapped [register] still wraps the
    function already stored under that name: the existing handler gets one
    more wrapper, and from then on a call of it that is traced starts one
    span more than before. *)
Theorem duplicate_registration_wraps_again
    (impl : gmap string HandlerSet → RegisterArgs → Value * gmap string HandlerSet)
    (handlers : gmap string HandlerSet) (args : RegisterArgs) (hs : HandlerSet)
    (w : World) :
  snd (impl handlers args) = handlers →
  handlers !! r_name args = Some hs →
  ∃ hs',
    snd (fst (invoke_register (register_patched (RegisterOrig impl)) handlers args w))
      !! r_name args = Some hs'
    ∧ func hs' = func_patched (r_name args) (r_type args) (fst (impl handlers args)) (func hs)
    ∧ handler_layers (func hs') = S (handler_layers (func hs))
    ∧ ∀ call cb w0,
        ignored_in w0 (r_name args) = false →
        is_known_shape (r_type args) = true →
        ∃ d, log (snd (invoke_func (func hs') call cb w0)) = log w0 ++ d
             ∧ count is_StartSpan d = S (traced_layers (config w0) (func hs)).
Proof.
  intros Hrejected Hstored.
  rewrite invoke_register_run. cbn [register_impl register_layers fst snd].
  rewrite Hrejected, Hstored.
  eexists. split; [apply lookup_insert_eq|]. cbn [func set_func Nat.iter].
  split; [reflexivity|]. split; [reflexivity|].
  intros call cb w0 Hign Hshape.
  match goal with
  | |- context [invoke_func ?f call cb w0] =>
      destruct (invoke_func_frame f call cb w0) as (d & Hd & Hs & _)
  end.
  exists d. rewrite Hd. split; [done|]. rewrite Hs.
  cbn [func set_func Nat.iter nat_rect traced_layers].
  unfold ignored_in in Hign. by rewrite Hign, Hshape.
Qed.

Lemma duplicate_registration_wraps_again_witness :
  ∃ hs', Duplicate.registered_twice !! "/pkg.Service/Get" = Some hs'
         ∧ handler_layers (func hs') = 2
         ∧ ∃ d, log (snd (invoke_func (func hs') Sample.call SendUnaryData Sample.world))
                = log Sample.world ++ d
                ∧ count is_StartSpan d = 2.
Proof.
  destruct (duplicate_registration_wraps_again Sample.library_register
              Duplicate.registered_once Duplicate.args
              (set_func (func_patched "/pkg.Service/Get" "unary" (VBool true)
                           (HandlerOrig Sample.failing_handler))
                 {| func := HandlerOrig Sample.failing_handler; hs_type := "unary" |})
              Sample.world eq_refl eq_refl)
    as (hs' & Hhs' & _ & Hlayers & Hcall).
  exists hs'. split; [exact Hhs'|]. split; [exact Hlayers|].
  exact (Hcall Sample.call SendUnaryData Sample.world eq_refl eq_refl).
Defined.

(** ** The wrapper of [call.sendMetadata], around any function *)

(** X5. However many wrappers [call.sendMetadata] has (one is added by each
    traced call that handles the call object), one invocation captures the
    response metadata for each wrapper and then calls the library's
    [sendMetadata] exactly once, last, with the metadata given; nothing but
    the log changes. *)
Theorem sendMetadata_wrappers_delegate_once (f : SendMetadataFn) (md : Metadata)
    (w : World) :
  ∃ attrs,
    snd (invoke_sendMetadata f md w) = add_log (attrs ++ [CallOriginalSendMetadata md]) w
    ∧ Forall (fun a => is_SetAttribute a = true) attrs
    ∧ count is_CallOriginalSendMetadata (attrs ++ [CallOriginalSendMetadata md]) = 1.
Proof.
  rewrite invoke_sendMetadata_run. cbn [snd].
  assert (H : ∃ attrs, sendMetadata_actions (_metadataCapture w) f md
                       = attrs ++ [CallOriginalSendMetadata md]
                       ∧ Forall (fun a => is_SetAttribute a = true) attrs).
  { induction f as [result|span f (attrs & IH & Hattrs)].
    - by exists [].
    - cbn [sendMetadata_actions]. rewrite IH. eexists (_ ++ attrs).
      split; [by rewrite app_assoc|]. apply Forall_app. split; [|exact Hattrs].
      eapply Forall_impl; [apply captured_only_setAttribute|].
      by intros a (? & ? & -> & _). }
  destruct H as (attrs & -> & Hattrs). exists attrs. split; [done|]. split; [done|].
  rewrite count_app. simpl.
  rewrite (count_none is_CallOriginalSendMetadata (fun a => is_SetAttribute a) attrs);
    [done| |exact Hattrs].
  by intros [].
Qed.

(** ** Span names *)

Lemma remove_first_slash_none (s : string) :
  Str.has_slash s = false → Str.remove_first_slash s = s.
Proof.
  induction s as [|c rest IH]; simpl; [done|].
  intros H. apply orb_false_iff in H as [Hc Hrest]. by rewrite Hc, (IH Hrest).
Qed.

Lemma remove_first_slash_app (a b : string) :
  Str.has_slash a = false →
  Str.remove_first_slash (a +:+ String Str.slash b) = a +:+ b.
Proof.
  induction a as [|c rest IH]; simpl; [done|].
  intros H. apply orb_false_iff in H as [Hc Hrest]. by rewrite Hc, (IH Hrest).
Qed.

Lemma func_traced_log (name type : string) (originalResult : Value)
    (originalFunc : HandlerFn) (call : ServerCallWithMeta) (cb : CallbackFn)
    (w : World) :
  ignored_in w name = false →
  ∃ d, log (snd (invoke_func (func_patched name type originalResult originalFunc)
                   call cb w))
       = log w ++ server_preamble (_metadataCapture w) name call (nextSpan w) ++ d.
Proof.
  intros Hign. rewrite (func_traced_general _ _ _ _ _ _ _ Hign). cbn [snd].
  set (w1 := set_active (SpanContext _ _) _).
  assert (Hw1 : log w1 = log w ++ server_preamble (_metadataCapture w) name call (nextSpan w))
    by done.
  destruct (is_unary_or_client_stream type); [|destruct (is_server_stream_or_bidi type)].
  - destruct (invoke_func_frame originalFunc
                (set_sendMetadata (SendMetadataPatched (nextSpan w) (sendMetadata call)) call)
                (patchedCallback (nextSpan w) cb) w1) as (d & -> & _).
    exists d. cbn [set_active advanced_world log]. by rewrite Hw1, <- app_assoc.
  - destruct (invoke_func_frame originalFunc
                (set_listeners
                   (listeners call ++ [{| l_span := nextSpan w; spanEnded := false |}])
                   (set_sendMetadata (SendMetadataPatched (nextSpan w) (sendMetadata call))
                      call))
                UndefinedCallback w1) as (d & -> & _).
    exists d. cbn [set_active advanced_world log]. by rewrite Hw1, <- app_assoc.
  - exists []. cbn [snd set_active log]. by rewrite Hw1, app_nil_r.
Qed.

(** X6. The span of a traced server call is named [grpc.] followed by the
    registered name without its first ['/'] only: for a name [a/b] with no
    ['/'] in [a] (for [/pkg.Service/Method], [a] is empty) the name is
    [grpc.ab], later slashes kept; a name without ['/'] is kept whole.  The
    span is of kind SERVER and is started right after the debug message and
    the extraction of the context, whatever the call shape. *)
Theorem server_span_name (a b type : string) (originalResult : Value)
    (originalFunc : HandlerFn) (call : ServerCallWithMeta) (cb : CallbackFn)
    (w : World) :
  Str.has_slash a = false →
  ignored_in w (a +:+ "/" +:+ b) = false →
  ∃ msg d,
    log (snd (invoke_func (func_patched (a +:+ "/" +:+ b) type originalResult originalFunc)
                call cb w))
    = log w ++ [DiagDebug msg; PropagationExtract (metadata call);
                StartSpan (nextSpan w) ("grpc." +:+ a +:+ b) SERVER] ++ d.
Proof.
  intros Ha Hign. destruct (func_traced_log _ type originalResult originalFunc call cb w Hign)
    as (d & ->).
  unfold server_preamble.
  change (a +:+ "/" +:+ b) with (a +:+ String Str.slash b).
  rewrite (remove_first_slash_app a b Ha).
  eexists _, _. f_equal.
Qed.

Lemma server_span_name_witness :
  ∃ msg d,
    log (snd (invoke_func
                (func_patched "/pkg.Service/Get" "unary" (VBool true)
                   (HandlerOrig Sample.failing_handler))
                Sample.call SendUnaryData Sample.world))
    = log Sample.world
      ++ [DiagDebug msg; PropagationExtract (metadata Sample.call);
          StartSpan 0 "grpc.pkg.Service/Get" SERVER] ++ d.
Proof.
  exact (server_span_name "" "pkg.Service/Get" "unary" (VBool true)
           (HandlerOrig Sample.failing_handler) Sample.call SendUnaryData Sample.world
           eq_refl eq_refl).
Defined.

Section ClientNames.

Variable URI_REGEX_exec : string → option (string * string).
Variable parseInt : string → AttributeValue.



End ClientNames.

(** ** A traced call of a shape that is none of the four *)

Lemma preamble_no_SpanEnd (mc : metadataCaptureType) (name : string)
    (call : ServerCallWithMeta) (span : nat) :
  count is_SpanEnd (server_preamble mc name call span) = 0.
Proof.
  unfold server_preamble. rewrite count_app. simpl.
  apply (count_none _ (fun a => is_SetAttribute a)); [by intros []|].
  eapply Forall_impl; [apply captured_only_setAttribute|].
  by intros a (? & ? & -> & _).
Qed.

(** X8. For a registered type that is none of the four call shapes and a
    method that is not ignored, the wrapper starts a span, wraps
    [call.sendMetadata], and stops: no handler is called, the span is not
    ended by the invocation, and [undefined] is returned. *)
Theorem unknown_shape_traced_leaves_span_open
    (name type : string) (originalResult : Value) (originalFunc : HandlerFn)
    (call : ServerCallWithMeta) (cb : CallbackFn) (w : World) :
  ignored_in w name = false →
  is_known_shape type = false →
  ∃ d, invoke_func (func_patched name type originalResult originalFunc) call cb w
       = ((VUndefined,
           set_sendMetadata (SendMetadataPatched (nextSpan w) (sendMetadata call)) call),
          traced_world d w)
       ∧ count is_StartSpan d = 1
       ∧ count is_SpanEnd d = 0
       ∧ count is_CallOriginalFunc d = 0.
Proof.
  intros Hign Hshape. unfold is_known_shape in Hshape.
  apply orb_false_iff in Hshape as [Hunary Hstream].
  rewrite (func_traced_other _ _ _ _ _ _ _ Hign Hunary Hstream).
  eexists. split; [reflexivity|].
  destruct (preamble_one_StartSpan (_metadataCapture w) name call (nextSpan w))
    as (Hs & Hf & _).
  by rewrite Hs, Hf, preamble_no_SpanEnd.
Qed.

Lemma unknown_shape_traced_leaves_span_open_witness :
  ∃ d, invoke_func Sample.duplex_func Sample.call SendUnaryData Sample.world
       = ((VUndefined,
           set_sendMetadata (SendMetadataPatched 0 (sendMetadata Sample.call)) Sample.call),
          traced_world d Sample.world)
       ∧ count is_StartSpan d = 1
       ∧ count is_SpanEnd d = 0
       ∧ count is_CallOriginalFunc d = 0.
Proof.
  exact (unknown_shape_traced_leaves_span_open "/pkg.Service/Get" "duplex" (VBool true)
           (HandlerOrig Sample.failing_handler) Sample.call SendUnaryData Sample.world
           eq_refl eq_refl).
Defined.

(** ** What the user's handler is called with *)

(** X9. In a traced call of one of the four shapes, the user's function is
    called exactly once, inside a context in which the new span is active on
    top of the context extracted from the call's metadata, itself on top of
    the context active at the call; it is given the call object with
    [sendMetadata] wrapped, and the wrapped callback for the unary and
    client-streaming shapes or the call alone (with the stream listeners
    registered) for the streaming ones. *)
Theorem traced_handler_runs_in_span_context
    (name type : string) (originalResult : Value) (h : UserHandler)
    (call : ServerCallWithMeta) (cb : CallbackFn) (w : World) :
  ignored_in w name = false →
  is_known_shape type = true →
  let span := nextSpan w in
  let call1 := set_sendMetadata (SendMetadataPatched span (sendMetadata call)) call in
  ∃ before after,
    log (snd (invoke_func (func_patched name type originalResult (HandlerOrig h)) call cb w))
    = log w ++ before
      ++ [CallOriginalFunc h
            (if is_unary_or_client_stream type then call1
             else set_listeners
                    (listeners call ++ [{| l_span := span; spanEnded := false |}]) call1)
            (if is_unary_or_client_stream type then patchedCallback span cb
             else UndefinedCallback)
            (SpanContext span (Extracted (metadata call) (active w)))]
      ++ after
    ∧ count is_CallOriginalFunc before = 0
    ∧ count is_CallOriginalFunc after = 0.
Proof.
  intros Hign Hshape span call1. unfold is_known_shape in Hshape.
  destruct (preamble_one_StartSpan (_metadataCapture w) name call span) as (_ & Hf & _).
  destruct (is_unary_or_client_stream type) eqn:Hunary.
  - rewrite (func_traced_unary _ _ originalResult _ _ cb _ Hign Hunary).
    eexists _, _. split; [reflexivity|]. split; [exact Hf|].
    apply completion_no_CallOriginalFunc, steps_actions_completion.
  - simpl in Hshape.
    rewrite (func_traced_stream _ _ originalResult _ _ cb _ Hign Hshape).
    eexists _, _. split; [reflexivity|]. split; [exact Hf|].
    apply completion_no_CallOriginalFunc, steps_actions_completion.
Qed.

Lemma traced_handler_runs_in_span_context_witness :
  ∃ before after,
    log (snd (invoke_func
                (func_patched "/pkg.Service/Watch" "bidi" (VBool true)
                   (HandlerOrig Sample.streaming_handler))
                Sample.call UndefinedCallback Sample.world))
    = log Sample.world ++ before
      ++ [CallOriginalFunc Sample.streaming_handler
            (set_listeners [{| l_span := 0; spanEnded := false |}]
               (set_sendMetadata (SendMetadataPatched 0 (sendMetadata Sample.call))
                  Sample.call))
            UndefinedCallback
            (SpanContext 0 (Extracted (metadata Sample.call) ROOT_CONTEXT))]
      ++ after
    ∧ count is_CallOriginalFunc before = 0
    ∧ count is_CallOriginalFunc after = 0.
Proof.
  exact (traced_handler_runs_in_span_context "/pkg.Service/Watch" "bidi" (VBool true)
           Sample.streaming_handler Sample.call UndefinedCallback Sample.world
           eq_refl eq_refl).
Defined.

(** ** [_getMethodsToWrap] *)

Lemma methods_of_entry_spec (cfg : GrpcInstrumentationConfig) (c : Client)
    (key : string) (def : MethodDefinition) (m : string) :
  m ∈ methods_of_entry cfg c key def
  ↔ _methodIsIgnored key (ignoreGrpcMethods cfg) = false
    ∧ (m = key
       ∨ (originalName def = Some m ∧ m ≠ ""
          ∧ is_Some (prototype c !! m) ∧ key ≠ m)).
Proof.
  unfold methods_of_entry.
  destruct (_methodIsIgnored key (ignoreGrpcMethods cfg)); cbn [negb].
  { split; [by intros ?%elem_of_nil|by intros [? _]]. }
  rewrite elem_of_cons. split.
  - intros [->|Hin]; [by split; [|left]|]. split; [done|]. right.
    destruct (originalName def) as [o|]; [|by apply elem_of_nil in Hin].
    destruct (String.eqb_spec o ""); cbn [negb andb] in Hin;
      [by apply elem_of_nil in Hin|].
    destruct (bool_decide_reflect (is_Some (prototype c !! o))); cbn [andb] in Hin;
      [|by apply elem_of_nil in Hin].
    destruct (String.eqb_spec key o); cbn [negb] in Hin; [by apply elem_of_nil in Hin|].
    apply list_elem_of_singleton in Hin. by subst.
  - intros [_ [->|(Ho & Hne & Hproto & Hkey)]]; [by left|]. right. rewrite Ho.
    destruct (String.eqb_spec m ""); [done|].
    rewrite (bool_decide_eq_true_2 _ Hproto).
    destruct (String.eqb_spec key m); [done|]. cbn [negb andb]. by left.
Qed.

(** X10. [_getMethodsToWrap] changes nothing and returns a list that holds
    exactly: every key of the method table that the configuration of the
    moment does not ignore, and, for such a key, its original name when that
    is a non-empty name other than the key that exists on the client's
    prototype.  So a name that is not on the prototype is only ever listed
    as a key, and an ignored key hides its original name too. *)
Theorem getMethodsToWrap_lists (c : Client) (methods : Methods) (w : World) :
  snd (_getMethodsToWrap c methods w) = w
  ∧ ∀ m, m ∈ fst (_getMethodsToWrap c methods w)
         ↔ ∃ key def,
             (key, def) ∈ methods
             ∧ _methodIsIgnored key (ignoreGrpcMethods (config w)) = false
             ∧ (m = key
                ∨ (originalName def = Some m ∧ m ≠ ""
                   ∧ is_Some (prototype c !! m) ∧ key ≠ m)).
Proof.
  rewrite _getMethodsToWrap_run. cbn [fst snd]. split; [done|].
  intros m. unfold methods_to_wrap. rewrite list_elem_of_In, in_flat_map. split.
  - intros ([key def] & Hentry & Hm). apply list_elem_of_In in Hentry, Hm.
    cbn [fst snd] in Hm. apply methods_of_entry_spec in Hm as [Hign Hm].
    by exists key, def.
  - intros (key & def & Hentry & Hign & Hm). exists (key, def).
    split; [by apply list_elem_of_In|]. apply list_elem_of_In.
    cbn [fst snd]. by apply methods_of_entry_spec.
Qed.

(** X11. The list [_getMethodsToWrap] returns keeps the order of the method
    table: the keys that are not ignored appear in it in table order, and it
    has at most two names per entry of the table. *)
Theorem getMethodsToWrap_order_and_size (c : Client) (methods : Methods) (w : World) :
  filter (fun key => _methodIsIgnored key (ignoreGrpcMethods (config w)) = false)
    (map fst methods)
    `sublist_of` fst (_getMethodsToWrap c methods w)
  ∧ (length (fst (_getMethodsToWrap c methods w)) ≤ 2 * length methods)%nat.
Proof.
  rewrite _getMethodsToWrap_run. cbn [fst]. unfold methods_to_wrap.
  induction methods as [|[key def] rest [IHs IHl]]; [by split|].
  cbn [map flat_map fst snd length]. rewrite filter_cons, length_app.
  unfold methods_of_entry at 1 3.
  destruct (_methodIsIgnored key (ignoreGrpcMethods (config w))) eqn:Hign; cbn [negb].
  - rewrite decide_False by done. split; [exact IHs|]. simpl. lia.
  - rewrite decide_True by done. split.
    + cbn [app]. apply sublist_skip.
      destruct (originalName def) as [o|]; [|exact IHs].
      destruct (_ && _); [|exact IHs]. by apply sublist_cons.
    + destruct (originalName def) as [o|]; [destruct (_ && _)|]; simpl; lia.
Qed.

(** ** The wrapper of the client-constructor factory, around any function *)

Lemma path_of_iter (k : nat) (f : GrpcClientFunc) :
  path_of (Nat.iter k clientMethodTrace f) = path_of f.
Proof. induction k as [|k IH]; simpl; [done|]. exact IH. Qed.

Lemma invoke_makeClientConstructor_frame (f : MakeClientConstructorFn)
    (methods : Methods) (serviceName : string) (options : Value) :
  ∀ w : World,
  ∃ d, snd (invoke_makeClientConstructor f methods serviceName options w) = add_log d w
       ∧ count is_CallOriginalMakeClientConstructor d = 1
       ∧ ∀ m, ∃ k,
           prototype (fst (invoke_makeClientConstructor f methods serviceName options w)) !! m
           = Nat.iter k clientMethodTrace
               <$> prototype (factory_impl f methods serviceName options) !! m.
Proof.
  induction f as [impl|original IH]; intros w.
  - cbn [invoke_makeClientConstructor factory_impl]. unfold bind. rewrite emit_run.
    eexists. split; [reflexivity|]. split; [done|]. intros m. exists 0.
    cbn [ret fst]. by destruct (_ !! m).
  - cbn [invoke_makeClientConstructor factory_impl]. unfold bind.
    destruct (IH w) as (d & Hd & Hc & Hproto).
    destruct (invoke_makeClientConstructor original methods serviceName options w)
      as [c0 w0]. cbn [fst snd] in Hd, Hproto. subst w0.
    rewrite _getMethodsToWrap_run, _massWrap_run. unfold ret. cbn [fst snd].
    rewrite add_log_app. eexists. split; [reflexivity|]. split.
    { rewrite count_app, Hc. by rewrite mass_wrap_actions_diag. }
    intros m. destruct (Hproto m) as (k & Hk).
    exists (occurrences m (methods_to_wrap (config (add_log d w)) c0 methods) + k).
    cbn [prototype]. rewrite mass_wrapped_lookup, Hk.
    destruct (prototype (factory_impl original methods serviceName options) !! m) as [g|];
      [|done].
    cbn [fmap option_fmap option_map]. f_equal.
    rewrite Nat.iter_add. done.
Qed.

(** X12. Whatever wrappers the client-constructor factory has, a call of it
    calls the library's factory exactly once and returns a client with
    exactly the library's methods: no name is added or removed, every method
    is the library's method under some number of wrappers, and it carries
    the library's [path] (wrapping never changes what [Object.assign] copied).
    Nothing but the log changes. *)
Theorem factory_wrappers_keep_prototype (f : MakeClientConstructorFn)
    (methods : Methods) (serviceName : string) (options : Value) (w : World) :
  let generated := fst (invoke_makeClientConstructor f methods serviceName options w) in
  let library := factory_impl f methods serviceName options in
  (∃ d, snd (invoke_makeClientConstructor f methods serviceName options w) = add_log d w
        ∧ count is_CallOriginalMakeClientConstructor d = 1)
  ∧ dom (prototype generated) = dom (prototype library)
  ∧ (∀ m g, prototype generated !! m = Some g →
       ∃ g0 k, prototype library !! m = Some g0
               ∧ g = Nat.iter k clientMethodTrace g0
               ∧ path_of g = path_of g0
               ∧ client_layers g = k + client_layers g0).
Proof.
  intros generated library.
  destruct (invoke_makeClientConstructor_frame f methods serviceName options w)
    as (d & Hd & Hc & Hproto). fold generated library in Hproto.
  split; [by exists d|]. split.
  - apply set_eq. intros m. rewrite !elem_of_dom. destruct (Hproto m) as (k & ->).
    by rewrite fmap_is_Some.
  - intros m g Hg. destruct (Hproto m) as (k & Hk). rewrite Hg in Hk.
    destruct (prototype library !! m) as [g0|]; [|done].
    injection Hk as ->. exists g0, k. split; [done|]. split; [done|].
    split; [apply path_of_iter|apply client_layers_iter].
Qed.

(** ** The patch lifecycle, from any exports *)

Lemma register_layers_unwrapped (r : RegisterFn) :
  register_layers (unwrapped r) = Nat.pred (register_layers r).
Proof. by destruct r. Qed.

Lemma factory_layers_unwrapped (g : MakeClientConstructorFn) :
  factory_layers (unwrapped g) = Nat.pred (factory_layers g).
Proof. by destruct g. Qed.

(** X13. Applying the patch is idempotent on the exports, from any exports
    (wrapped or not) and whatever the versions and the state of the
    instrumentation: applying it again gives the same exports as applying it
    once, for the [grpc] module and for the internal client files. *)
Theorem patch_idempotent (e : GrpcModule) (i : GrpcInternalClientTypes)
    (v1 v2 : string) (w w' : World) :
  fst (init_patch (fst (init_patch e v1 w)) v2 w') = fst (init_patch e v1 w)
  ∧ fst (onPatch (fst (onPatch i v1 w)) v2 w') = fst (onPatch i v1 w).
Proof. by rewrite !init_patch_run, !onPatch_run. Qed.

(** X14. After the patch each target is wrapped, and it has as many
    wrappers as before, or one if it had none: the patch replaces the
    outermost wrapper only, so wrappers below it (from earlier loads that
    did not go through the patch, or from others) stay. *)
Theorem patch_layers (e : GrpcModule) (i : GrpcInternalClientTypes)
    (v : string) (w : World) :
  isWrapped (Server_prototype_register (fst (init_patch e v w))) = true
  ∧ isWrapped (makeGenericClientConstructor (fst (init_patch e v w))) = true
  ∧ isWrapped (makeClientConstructor (fst (onPatch i v w))) = true
  ∧ register_layers (Server_prototype_register (fst (init_patch e v w)))
    = Nat.max 1 (register_layers (Server_prototype_register e))
  ∧ factory_layers (makeGenericClientConstructor (fst (init_patch e v w)))
    = Nat.max 1 (factory_layers (makeGenericClientConstructor e))
  ∧ factory_layers (makeClientConstructor (fst (onPatch i v w)))
    = Nat.max 1 (factory_layers (makeClientConstructor i)).
Proof.
  rewrite init_patch_run, onPatch_run.
  cbn [fst Server_prototype_register makeGenericClientConstructor makeClientConstructor
       register_layers factory_layers].
  rewrite register_layers_unwrapped, !factory_layers_unwrapped.
  repeat split; lia.
Qed.

(** X15. Removing the patch is safe: with undefined exports the callbacks
    do nothing at all, not even log; on exports whose target is not wrapped
    they leave the exports as they are; and after a patch of exports that
    were not wrapped, the unpatch of the internal client file gives back the
    exports it started from, and that of the [grpc] module gives back the
    original [register]. *)
Theorem unpatch_safe (e : GrpcModule) (i : GrpcInternalClientTypes)
    (v v' : string) (w w' : World) :
  isWrapped (Server_prototype_register e) = false →
  isWrapped (makeClientConstructor i) = false →
  init_unpatch None v w = (None, w)
  ∧ onUnPatch None v w = (None, w)
  ∧ fst (init_unpatch (Some e) v w) = Some e
  ∧ fst (onUnPatch (Some i) v w) = Some i
  ∧ fst (onUnPatch (Some (fst (onPatch i v w))) v' w') = Some i
  ∧ Server_prototype_register <$> fst (init_unpatch (Some (fst (init_patch e v w))) v' w')
    = Some (Server_prototype_register e).
Proof.
  intros He Hi. rewrite init_patch_run, onPatch_run, !init_unpatch_run, !onUnPatch_run.
  destruct e as [r g], i as [c]. destruct r; [|done]. destruct c; [|done]. done.
Qed.

Lemma unpatch_safe_witness :
  fst (init_unpatch (Some Sample.grpc) "1.24.11" Sample.world) = Some Sample.grpc
  ∧ fst (onUnPatch (Some (fst (onPatch Sample.grpc_client_js "1.24.11" Sample.world)))
           "1.24.11" Sample.world) = Some Sample.grpc_client_js.
Proof.
  destruct (unpatch_safe Sample.grpc Sample.grpc_client_js "1.24.11" "1.24.11"
              Sample.world Sample.world eq_refl eq_refl)
    as (_ & _ & Hmain & _ & Hround & _).
  split; [exact Hmain|exact Hround].
Defined.

(** ** The captures follow the configuration *)



Section Coherence.

Variable URI_REGEX_exec : string → option (string * string).
Variable parseInt : string → AttributeValue.


End Coherence.


(** ** The stub of the module-hook tests *)

Lemma stubs_append (labels : list string) :
  ∀ (exports : AugmentedExports) (seen : list string),
  __ritmOnRequires exports = Some seen →
  __ritmOnRequires (foldl (fun e label => makeOnRequiresStub label e) exports labels)
  = Some (seen ++ labels)
  ∧ module_exports (foldl (fun e label => makeOnRequiresStub label e) exports labels)
    = module_exports exports.
Proof.
  induction labels as [|label rest IH]; intros exports seen Hseen; cbn [foldl].
  - by rewrite app_nil_r.
  - destruct (IH (makeOnRequiresStub label exports) (seen ++ [label])) as [Hl Hm].
    { unfold makeOnRequiresStub. cbn [__ritmOnRequires]. by rewrite Hseen. }
    split; [by rewrite Hl, <- app_assoc|by rewrite Hm].
Qed.

(** X17. The [onRequire] stubs of the module-hook tests record their labels
    on the exports in the order in which they are called: after the stubs
    for [label], then [labels], the exports hold what they held before (an
    absent list counting as empty) followed by these labels in that order,
    and are otherwise the exports given. *)
Theorem onRequire_stubs_record_labels_in_order
    (exports : AugmentedExports) (label : string) (labels : list string) :
  __ritmOnRequires
    (foldl (fun e l => makeOnRequiresStub l e) exports (label :: labels))
  = Some (match __ritmOnRequires exports with Some seen => seen | None => [] end
          ++ label :: labels)
  ∧ module_exports (foldl (fun e l => makeOnRequiresStub l e) exports (label :: labels))
    = module_exports exports.
Proof.
  cbn [foldl].
  destruct (stubs_append labels (makeOnRequiresStub label exports)
              (match __ritmOnRequires exports with Some seen => seen | None => [] end
               ++ [label]) eq_refl) as [Hl Hm].
  split; [by rewrite Hl, <- app_assoc|exact Hm].
Qed.

(** ** Reconfiguration and handlers registered earlier *)

(** X18. The server side reads the ignore list at each call: after
    [setConfig] a handler wrapped earlier starts, per call, one span for each
    wrapper whose method the new configuration does not ignore.  (The client
    side does not: see C10.) *)
Theorem setConfig_applies_to_registered_handlers (f : HandlerFn)
    (call : ServerCallWithMeta) (cb : CallbackFn) (w : World)
    (cfg : GrpcInstrumentationConfig) :
  ∃ d, log (snd (invoke_func f call cb (snd (setConfig (Some cfg) w)))) = log w ++ d
       ∧ count is_StartSpan d = traced_layers cfg f.
Proof.
  destruct (invoke_func_frame f call cb (snd (setConfig (Some cfg) w))) as (d & -> & Hs & _).
  by exists d.
Qed.

(** ** Every listed method is wrapped *)

(** X19. A client generated through the wrapped factory traces every method
    that should be traced: for each entry of the method table whose key is
    not ignored when the client is generated, the method under the key, and
    the one under its original name when that is another, non-empty name,
    have at least one wrapper if they exist on the library's prototype. *)
Theorem listed_methods_are_wrapped
    (impl : Methods → string → Value → Client) (methods : Methods)
    (serviceName : string) (options : Value) (w : World)
    (key : string) (def : MethodDefinition) (m : string) (g0 : GrpcClientFunc) :
  (key, def) ∈ methods →
  _methodIsIgnored key (ignoreGrpcMethods (config w)) = false →
  m = key ∨ (originalName def = Some m ∧ m ≠ "" ∧ key ≠ m) →
  prototype (impl methods serviceName options) !! m = Some g0 →
  ∃ g, prototype (fst (invoke_makeClientConstructor
                         (makeClientConstructor_patched (MakeClientOrig impl))
                         methods serviceName options w)) !! m = Some g
       ∧ (client_layers g0 < client_layers g)%nat
       ∧ path_of g = path_of g0.
Proof.
  intros Hentry Hign Hm Hg0.
  rewrite invoke_patched_makeClientConstructor. cbn [fst prototype].
  rewrite mass_wrapped_lookup, Hg0. eexists. split; [reflexivity|].
  rewrite client_layers_iter, path_of_iter. split; [|done].
  assert (Hin : m ∈ methods_to_wrap (config w) (impl methods serviceName options) methods).
  { unfold methods_to_wrap. apply list_elem_of_In, in_flat_map. exists (key, def).
    split; [by apply list_elem_of_In|]. apply list_elem_of_In. cbn [fst snd].
    apply methods_of_entry_spec. split; [done|].
    destruct Hm as [->|(Ho & Hne & Hkey)]; [by left|]. right.
    split; [done|]. split; [done|]. split; [by rewrite Hg0|done]. }
  pose proof (occurrences_in _ _ Hin). lia.
Qed.

Lemma listed_methods_are_wrapped_witness :
  ∃ g, prototype (fst (invoke_makeClientConstructor
                         (makeClientConstructor_patched (MakeClientOrig Sample.library_client))
                         Sample.methods "Health" VUndefined Sample.world)) !! "Check" = Some g
       ∧ (client_layers Sample.health_check < client_layers g)%nat
       ∧ path_of g = path_of Sample.health_check.
Proof.
  refine (listed_methods_are_wrapped Sample.library_client Sample.methods "Health"
            VUndefined Sample.world "check" {| originalName := Some "Check" |} "Check"
            Sample.health_check _ eq_refl _ eq_refl).
  - by left.
  - right. split; [reflexivity|]. split; discriminate.
Defined.

Lemma register_wrappers_keep_table_witness :
  ∃ hs', Duplicate.registered_once !! "/pkg.Service/Get" = Some hs'
         ∧ hs_type hs' = "unary"
         ∧ handler_layers (func hs') = 1.
Proof.
  destruct (register_wrappers_keep_table Duplicate.patched_register ∅ Duplicate.args
              Sample.world) as (_ & _ & _ & _ & Hname & _).
  destruct (Hname {| func := HandlerOrig Sample.failing_handler; hs_type := "unary" |}
              eq_refl) as (hs' & Hhs' & Htype & _ & Hlayers).
  exists hs'. split; [exact Hhs'|]. split; [exact Htype|exact Hlayers].
Defined.

Lemma factory_wrappers_keep_prototype_witness :
  ∃ g0 k, prototype (Sample.library_client Sample.methods "Health" VUndefined) !! "check"
          = Some g0
          ∧ clientMethodTrace Sample.health_check = Nat.iter k clientMethodTrace g0
          ∧ path_of (clientMethodTrace Sample.health_check) = path_of g0.
Proof.
  destruct (factory_wrappers_keep_prototype
              (makeClientConstructor_patched (MakeClientOrig Sample.library_client))
              Sample.methods "Health" VUndefined Sample.world) as (_ & _ & Hmethods).
  destruct (Hmethods "check" (clientMethodTrace Sample.health_check) eq_refl)
    as (g0 & k & Hg0 & Hg & Hpath & _).
  exists g0, k. split; [exact Hg0|]. split; [exact Hg|exact Hpath].
Defined.
